(** * generate_aidev_csvs.py: the table transformations of the AIDev CSV pipeline

    A shallow embedding of [src/generate_aidev_csvs.py]: the text cleaner
    [clean_diff], the four rename-and-select projections
    ([produce_task1] .. [produce_task4]) and the join-and-flag step of
    [produce_task5].  File reading and writing (parquet, CSV) are left
    out: every function here takes the frame that was read and returns the
    frame that is written. *)

From Stdlib Require Import Ascii String DecimalString ZifyBool.
From stdpp Require Import base numbers list strings gmap.

Local Open Scope N_scope.

(** ** Python values *)

(** A Python [str] is a sequence of Unicode code points. *)
Abbreviation pystr := (list N).

(** A string literal of this file (ASCII) as a Python [str]. *)
Definition lit (s : string) : pystr :=
  map N_of_ascii (String.list_ascii_of_string s).

(** One cell of a pandas frame.  [Missing] stands for the null markers that
    [pd.isna] recognises (None, NaN).  A finite float is kept as the text
    that Python's [str] prints for it; the pipeline never computes with
    floats, it only carries them (the confidence score). *)
Inductive cell : Type :=
  | Missing
  | Str (s : pystr)
  | Int (z : Z)
  | Float (repr : pystr).

#[global] Instance cell_eq_dec : EqDecision cell.
Proof. solve_decision. Defined.

Definition isna (c : cell) : bool :=
  match c with Missing => true | _ => false end.

(** [str(x)] for a cell that is not null. *)
Definition py_str (c : cell) : pystr :=
  match c with
  | Missing => lit "nan"
  | Str s => s
  | Int z => lit (NilEmpty.string_of_int (Z.to_int z))
  | Float r => r
  end.

(** ** The text cleaner *)

Module Text.

Definition SP : N := 32.

(** The class [[\r\n\t]]. *)
Definition is_crlftab (c : N) : bool :=
  (c =? 13) || (c =? 10) || (c =? 9).

(** The class [[\x00-\x1F\x7F-\x9F]]: the C0 range, DEL and the C1 range. *)
Definition is_control (c : N) : bool :=
  (c <=? 31) || ((127 <=? c) && (c <=? 159)).

(** [str.isspace] of one code point (CPython's whitespace table). *)
Definition py_isspace (c : N) : bool :=
  ((9 <=? c) && (c <=? 13)) || ((28 <=? c) && (c <=? 32))
  || (c =? 133) || (c =? 160) || (c =? 5760)
  || ((8192 <=? c) && (c <=? 8202))
  || (c =? 8232) || (c =? 8233) || (c =? 8239) || (c =? 8287)
  || (c =? 12288).

(** [re.sub(r'[\r\n\t]+', ' ', s)]: the space is written when the last
    character of a run is read. *)
Fixpoint sub_crlftab (s : pystr) : pystr :=
  match s with
  | [] => []
  | c :: t =>
      if is_crlftab c then
        match t with
        | d :: _ => if is_crlftab d then sub_crlftab t else SP :: sub_crlftab t
        | [] => [SP]
        end
      else c :: sub_crlftab t
  end.

(** [re.sub(r'[\x00-\x1F\x7F-\x9F]', '', s)]. *)
Definition remove_control (s : pystr) : pystr :=
  filter (fun c => is_control c = false) s.

(** [re.sub(r' {2,}', ' ', s)]: a space followed by a space is dropped,
    so that a run of two or more leaves its last space. *)
Fixpoint sub_spaces (s : pystr) : pystr :=
  match s with
  | [] => []
  | c :: t =>
      match t with
      | d :: _ => if (c =? SP) && (d =? SP) then sub_spaces t else c :: sub_spaces t
      | [] => [c]
      end
  end.

(** [str.strip()] with no argument. *)
Fixpoint lstrip (s : pystr) : pystr :=
  match s with
  | [] => []
  | c :: t => if py_isspace c then lstrip t else s
  end.

Fixpoint rstrip (s : pystr) : pystr :=
  match s with
  | [] => []
  | c :: t =>
      match rstrip t with
      | [] => if py_isspace c then [] else [c]
      | t' => c :: t'
      end
  end.

Definition strip (s : pystr) : pystr := rstrip (lstrip s).

(** The three substitutions and the strip, on a [str]. *)
Definition clean_str (s : pystr) : pystr :=
  strip (sub_spaces (remove_control (sub_crlftab s))).

(** No two adjacent spaces. *)
Fixpoint no_sp_pair (s : pystr) : Prop :=
  match s with
  | [] => True
  | c :: t =>
      match t with
      | d :: _ => ~ (c = SP /\ d = SP) /\ no_sp_pair t
      | [] => True
      end
  end.

(** The characters that no step of the cleaner touches. *)
Definition kept (c : N) : Prop :=
  py_isspace c = false /\ is_control c = false.

#[global] Instance kept_dec c : Decision (kept c).
Proof. unfold kept. apply _. Defined.

End Text.

(** [clean_diff(text)]. *)
Definition clean_diff (text : cell) : pystr :=
  if isna text then []
  else Text.clean_str (py_str text).


(** ** Case mapping

    [str.lower] is Python's Unicode lower-casing, a table of the
    interpreter and not of this repository.  It is taken as an interface;
    the one law used is that on ASCII text it is the ASCII lower-casing. *)

Definition ascii_lower (c : N) : N :=
  if (65 <=? c) && (c <=? 90) then c + 32 else c.

Definition is_ascii (s : pystr) : Prop := Forall (fun c => c < 128) s.

Class PyLower := {
  str_lower : pystr -> pystr;
  str_lower_ascii : forall s, is_ascii s -> str_lower s = ascii_lower <$> s
}.

(** ** Frames *)

Inductive pyerr : Type :=
  | KeyError (missing : list string)
  | ValueError.

Inductive result (A : Type) : Type :=
  | Ok (a : A)
  | Err (e : pyerr).
Arguments Ok {A} a.
Arguments Err {A} e.

Definition bind {A B} (r : result A) (k : A -> result B) : result B :=
  match r with
  | Ok a => k a
  | Err e => Err e
  end.

Notation "'let*' x := r 'in' k" := (bind r (fun x => k))
  (at level 10, x name, r at level 100, k at level 200).

Definition is_ok {A} (r : result A) : Prop :=
  match r with Ok _ => True | Err _ => False end.



(** A pandas frame: its column labels and its rows, every row holding one
    cell per label. *)
Record DataFrame : Type := {
  columns : list string;
  data : list (list cell)
}.

Definition wf_frame (df : DataFrame) : Prop :=
  Forall (fun r => length r = length (columns df)) (data df).

(** The position of the first column that carries a label. *)
Definition col_index (name : string) (cols : list string) : option nat :=
  fst <$> list_find (fun c => c = name) cols.

(** All positions that carry a label, in column order. *)
Definition positions (name : string) (cols : list string) : list nat :=
  filter (fun i => cols !! i = Some name) (seq 0 (length cols)).

Definition cell_at (i : nat) (r : list cell) : cell := default Missing (r !! i).

(** [df.rename(columns=m)]: a label that is not a key of [m] is kept. *)
Definition rename_label (m : gmap string string) (c : string) : string :=
  default c (m !! c).

Definition rename (m : gmap string string) (df : DataFrame) : DataFrame :=
  {| columns := rename_label m <$> columns df; data := data df |}.

(** [df[[n1, ..., nk]]]: a KeyError that lists the labels not found; a
    label carried by several columns selects all of them. *)
Definition getitem_list (names : list string) (df : DataFrame) : result DataFrame :=
  match filter (fun n => n ∉ columns df) names with
  | [] =>
      let ps := names ≫= (fun n => positions n (columns df)) in
      Ok {| columns := omap (fun p => columns df !! p) ps;
            data := (fun r => (fun p => cell_at p r) <$> ps) <$> data df |}
  | missing => Err (KeyError missing)
  end.

(** [df[name] = df[name].apply(f)].  With the label on several columns,
    [df[name]] is a frame and [f] receives whole columns: [pd.isna] of a
    column has no truth value, which is a ValueError (an empty frame never
    calls [f] and is left as it is). *)
Definition apply_column (name : string) (f : cell -> cell) (df : DataFrame)
  : result DataFrame :=
  match positions name (columns df) with
  | [] => Err (KeyError [name])
  | [i] => Ok {| columns := columns df; data := (fun r => alter f i r) <$> data df |}
  | _ => match data df with
         | [] => Ok df
         | _ => Err ValueError
         end
  end.

(** [df[name]] as a Series, read at the first column with the label.  The
    frames of task 5 come from [read_csv], which makes labels unique, and
    the merge then leaves each label that is read on one column. *)
Definition getitem (name : string) (df : DataFrame) : result (list cell) :=
  match col_index name (columns df) with
  | Some i => Ok (cell_at i <$> data df)
  | None => Err (KeyError [name])
  end.

(** [df[name] = values]: overwrites the column, or appends a new one. *)
Definition setitem (name : string) (values : list cell) (df : DataFrame) : DataFrame :=
  match col_index name (columns df) with
  | Some i =>
      {| columns := columns df;
         data := zip_with (fun r v => <[i := v]> r) (data df) values |}
  | None =>
      {| columns := columns df ++ [name];
         data := zip_with (fun r v => r ++ [v]) (data df) values |}
  end.

(** [pd.DataFrame({l1: s1, ..., lk: sk})] of Series over one index. *)
Definition frame_of_series (series : list (string * list cell)) : DataFrame :=
  {| columns := fst <$> series;
     data := (fun i => (fun s => cell_at i s.2) <$> series)
               <$> seq 0 (length (default [] (snd <$> head series))) |}.

(** *** Keys of a merge

    pandas compares the keys of a merge by value.  Integers are compared
    with integers and strings with strings as they are; a column of
    integers that meets a column of floats is cast to floats first, so the
    integer 5 finds the float 5.0; a null finds a null.  A float is kept as
    the text [repr] prints for it, and its value is read back from that
    text. *)

(** The text before the first occurrence of a character and, when the
    character occurs, the text after it. *)
Fixpoint split_at (c : N) (s : pystr) : pystr * option pystr :=
  match s with
  | [] => ([], None)
  | x :: t =>
      if x =? c then ([], Some t)
      else let '(a, b) := split_at c t in (x :: a, b)
  end.

(** The number written by a string of decimal digits. *)
Fixpoint digits_value (acc : Z) (s : pystr) : option Z :=
  match s with
  | [] => Some acc
  | c :: t =>
      if (48 <=? c) && (c <=? 57)
      then digits_value (10 * acc + Z.of_N (c - 48)%N)%Z t
      else None
  end.

Definition decimal (s : pystr) : option Z :=
  match s with
  | [] => None
  | _ => digits_value 0 s
  end.

(** The float64 nearest to an integer, ties to even, as an integer: the
    cast of an int64 to float64 keeps 53 significant bits. *)
Definition round53 (z : Z) : Z :=
  let a := Z.abs z in
  let n := (Z.log2 a + 1)%Z in
  if (n <=? 53)%Z then z
  else
    let sh := (n - 53)%Z in
    let q := Z.shiftr a sh in
    let rest := (a - Z.shiftl q sh)%Z in
    let half := Z.shiftl 1 (sh - 1) in
    let q' := if (half <? rest)%Z || ((rest =? half)%Z && Z.odd q) then (q + 1)%Z else q in
    (Z.sgn z * Z.shiftl q' sh)%Z.

(** The integer that a float is equal to, if there is one, read from its
    [repr]: an optional sign, digits, a point and digits, and for 1e16 and
    above an exponent (["5.0"], ["-0.0"], ["1.5e+16"]).  [inf], [nan] and a
    float with a fractional part are equal to no integer. *)
Definition float_int_value (r : pystr) : option Z :=
  let '(neg, body) :=
    match r with
    | c :: t => if c =? 45 then (true, t) else (false, r)
    | [] => (false, r)
    end in
  let '(mant, expo) := split_at 101 body in
  let '(ip, frac) := split_at 46 mant in
  let fp := default [] frac in
  match ip with
  | [] => None
  | _ =>
      m ← digits_value 0 (ip ++ fp);
      e ← match expo with
          | None => Some 0%Z
          | Some (c :: d) =>
              if c =? 43 then decimal d
              else if c =? 45 then Z.opp <$> decimal d
              else None
          | Some [] => None
          end;
      let k := (e - Z.of_nat (length fp))%Z in
      d ← (if (0 <=? k)%Z then Some (m * 10 ^ k)%Z
           else if (m mod 10 ^ (- k) =? 0)%Z then Some (m / 10 ^ (- k))%Z
           else None);
      Some (round53 (if neg then - d else d)%Z)
  end.

(** Two keys meet.  Two floats are the same float when their [repr] is the
    same, and 0.0 is equal to -0.0. *)
Definition key_eq (a b : cell) : bool :=
  match a, b with
  | Missing, Missing => true
  | Str s, Str t => bool_decide (s = t)
  | Int x, Int y => bool_decide (x = y)
  | Int x, Float r | Float r, Int x =>
      bool_decide (float_int_value r = Some (round53 x))
  | Float r, Float t =>
      bool_decide (r = t)
      || bool_decide (float_int_value r = Some 0%Z /\ float_int_value t = Some 0%Z)
  | _, _ => false
  end.

(** The rows of the right frame whose key meets the key of a left row. *)
Definition matches (i j : nat) (right_rows : list (list cell)) (l : list cell)
  : list (list cell) :=
  filter (fun r => key_eq (cell_at j r) (cell_at i l) = true) right_rows.

(** The output rows of one left row: one per match, in the order of the
    right frame, or the left row filled with nulls when nothing matches. *)
Definition join_row (i j width : nat) (right_rows : list (list cell)) (l : list cell)
  : list (list cell) :=
  match matches i j right_rows l with
  | [] => [l ++ replicate width Missing]
  | ms => (fun r => l ++ r) <$> ms
  end.

(** The key columns of a join hold values of one kind: integers on both
    sides, or strings on both sides.  Two such keys meet exactly when they
    are the same cell. *)
Definition keys_of_one_kind (lk rk : list cell) : Prop :=
  (Forall (fun c => exists z, c = Int z) lk /\ Forall (fun c => exists z, c = Int z) rk)
  \/ (Forall (fun c => exists s, c = Str s) lk /\ Forall (fun c => exists s, c = Str s) rk).

(** A key column of numbers (nulls allowed), and one of strings (nulls
    allowed, one string at least); an empty column is neither. *)
Definition numeric_column (col : list cell) : bool :=
  match col with
  | [] => false
  | _ => forallb (fun c => match c with Str _ => false | _ => true end) col
  end.

Definition text_column (col : list cell) : bool :=
  forallb (fun c => match c with Str _ | Missing => true | _ => false end) col
  && existsb (fun c => match c with Str _ => true | _ => false end) col.

(** pandas refuses to merge a key column of numbers with one of strings. *)
Definition incompatible_keys (lk rk : list cell) : bool :=
  (numeric_column lk && text_column rk) || (text_column lk && numeric_column rk).

(** [left.merge(right, left_on=.., right_on=.., how="left", suffixes=(ls, rs))].
    The right key is looked up first, then the left one (a KeyError names
    the label not found), then the kinds of the two key columns are
    compared (ValueError).  A label carried by both frames gets the suffix
    of its side. *)
Definition merge_left (left right : DataFrame) (left_on right_on : string)
    (ls rs : string) : result DataFrame :=
  match col_index right_on (columns right) with
  | None => Err (KeyError [right_on])
  | Some j =>
      match col_index left_on (columns left) with
      | None => Err (KeyError [left_on])
      | Some i =>
          if incompatible_keys (cell_at i <$> data left) (cell_at j <$> data right)
          then Err ValueError
          else
            Ok {| columns :=
                    ((fun c => if decide (c ∈ columns right) then c +:+ ls else c)
                       <$> columns left)
                    ++ ((fun c => if decide (c ∈ columns left) then c +:+ rs else c)
                          <$> columns right);
                  data := data left ≫= join_row i j (length (columns right)) (data right) |}
      end
  end.

(** ** Tasks 1 to 4: rename and select *)

(** The frame transformation shared by the four tasks:
    [df.rename(columns=m)[order]]. *)
Definition project (m : gmap string string) (order : list string) (df : DataFrame)
  : result DataFrame :=
  getitem_list order (rename m df).

(** An output label has no corresponding source column: no column of the
    frame carries it once the labels are renamed. *)
Definition no_source (m : gmap string string) (df : DataFrame) (name : string) : Prop :=
  forall c, c ∈ columns df -> rename_label m c <> name.

Definition task1_map : gmap string string :=
  {[ "title" := "TITLE"; "id" := "ID"; "agent" := "AGENTNAME";
     "body" := "BODYSTRING"; "repo_id" := "REPOID"; "repo_url" := "REPOURL" ]}.
Definition task1_order : list string :=
  ["TITLE"; "ID"; "AGENTNAME"; "BODYSTRING"; "REPOID"; "REPOURL"].

Definition produce_task1 (df : DataFrame) : result DataFrame :=
  let out := rename task1_map df in
  getitem_list task1_order out.

Definition task2_map : gmap string string :=
  {[ "id" := "REPOID"; "language" := "LANG"; "stars" := "STARS"; "url" := "REPOURL" ]}.
Definition task2_order : list string := ["REPOID"; "LANG"; "STARS"; "REPOURL"].

Definition produce_task2 (df : DataFrame) : result DataFrame :=
  let out := rename task2_map df in
  getitem_list task2_order out.

Definition task3_map : gmap string string :=
  {[ "id" := "PRID"; "title" := "PRTITLE"; "reason" := "PRREASON";
     "type" := "PRTYPE"; "confidence" := "CONFIDENCE" ]}.
Definition task3_order : list string :=
  ["PRID"; "PRTITLE"; "PRREASON"; "PRTYPE"; "CONFIDENCE"].

Definition produce_task3 (df : DataFrame) : result DataFrame :=
  let out := rename task3_map df in
  getitem_list task3_order out.

Definition task4_map : gmap string string :=
  {[ "pr_id" := "PRID"; "sha" := "PRSHA"; "message" := "PRCOMMITMESSAGE";
     "filename" := "PRFILE"; "status" := "PRSTATUS"; "additions" := "PRADDS";
     "deletions" := "PRDELSS"; "changes" := "PRCHANGECOUNT"; "patch" := "PRDIFF" ]}.
Definition task4_order : list string :=
  ["PRID"; "PRSHA"; "PRCOMMITMESSAGE"; "PRFILE"; "PRSTATUS";
   "PRADDS"; "PRDELSS"; "PRCHANGECOUNT"; "PRDIFF"].

Definition produce_task4 (df : DataFrame) : result DataFrame :=
  let out := rename task4_map df in
  let* out := apply_column "PRDIFF" (fun c => Str (clean_diff c)) out in
  getitem_list task4_order out.

(** ** Task 5: join and flag *)

Definition security_keywords : list pystr :=
  lit <$> [
    "race"; "racy"; "buffer"; "overflow"; "stack"; "integer"; "signedness"; "underflow";
    "improper"; "unauthenticated"; "gain access"; "permission"; "cross site"; "css";
    "xss"; "denial service"; "dos"; "crash"; "deadlock"; "injection";
    "request forgery"; "csrf"; "xsrf"; "forged"; "security"; "vulnerability";
    "vulnerable"; "exploit"; "attack"; "bypass"; "backdoor"; "threat"; "expose";
    "breach"; "violate"; "fatal"; "blacklist"; "overrun"; "insecure" ]%string.

(** [s.startswith(p)], and [kw in text] as a scan over the start positions. *)
Fixpoint startswith (p s : pystr) : bool :=
  match p, s with
  | [], _ => true
  | _ :: _, [] => false
  | a :: p', b :: s' => (a =? b) && startswith p' s'
  end.

Fixpoint str_contains (kw text : pystr) : bool :=
  startswith kw text ||
  match text with
  | [] => false
  | _ :: t => str_contains kw t
  end.

(** The loop [for kw in keywords: if kw in text: return 1] and the final
    [return 0]. *)
Fixpoint first_hit (kws : list pystr) (text : pystr) : Z :=
  match kws with
  | [] => 0%Z
  | kw :: rest => if str_contains kw text then 1%Z else first_hit rest text
  end.

Section Task5.
Context `{PyLower}.

Definition keywords : list pystr := str_lower <$> security_keywords.

(** [row.get(name)] on a row of a frame with labels [cols]. *)
Definition row_get (cols : list string) (r : list cell) (name : string) : option cell :=
  i ← col_index name cols; r !! i.

(** ["" if pd.isna(v) else str(v).lower()]; [pd.isna(None)] is true. *)
Definition lowered (v : option cell) : pystr :=
  match v with
  | None => []
  | Some c => if isna c then [] else str_lower (py_str c)
  end.

(** The text [f"{title} {body}"] that is scanned. *)
Definition flag_text (cols : list string) (r : list cell) : pystr :=
  lowered (row_get cols r "TITLE") ++ [Text.SP] ++ lowered (row_get cols r "BODYSTRING").

Definition has_security_flag (cols : list string) (r : list cell) : Z :=
  first_hit keywords (flag_text cols r).

(** [produce_task5] from the two frames read to the frame written. *)
Definition produce_task5 (df1 df3 : DataFrame) : result DataFrame :=
  let* merged := merge_left df1 df3 "ID" "PRID" "" "_task3" in
  let security := (fun r => Int (has_security_flag (columns merged) r)) <$> data merged in
  let merged := setitem "SECURITY" security merged in
  let* c_id := getitem "ID" merged in
  let* c_agent := getitem "AGENTNAME" merged in
  let* c_type := getitem "PRTYPE" merged in
  let* c_conf := getitem "CONFIDENCE" merged in
  let* c_sec := getitem "SECURITY" merged in
  Ok (frame_of_series [("ID", c_id); ("AGENT", c_agent); ("TYPE", c_type);
                       ("CONFIDENCE", c_conf); ("SECURITY", c_sec)]).

End Task5.

(** The labels of the frame merged in task 5: the left suffix is empty,
    a right label also carried by the left frame gets [_task3]. *)
Definition merged_columns (df1 df3 : DataFrame) : list string :=
  columns df1
  ++ ((fun c => if decide (c ∈ columns df1) then c +:+ "_task3" else c) <$> columns df3).


(** What a left row is paired with: its matches, or one row of nulls. *)
Definition right_parts (i j width : nat) (right_rows : list (list cell)) (l : list cell)
  : list (list cell) :=
  match matches i j right_rows l with
  | [] => [replicate width Missing]
  | ms => ms
  end.

(** The SECURITY column of a written frame. *)
Definition security_column (out : DataFrame) : list cell := cell_at 4 <$> data out.

(** Sample frames: two pull requests, and classification tables that
    hold two rows, one row and no row for pull request 5. *)
Definition pr_sample : DataFrame :=
  {| columns := ["TITLE"; "ID"; "AGENTNAME"; "BODYSTRING"; "REPOID"; "REPOURL"];
     data := [ [Str (lit "Fix XSS vulnerability"); Int 5; Str (lit "Copilot"); Missing;
                Int 1; Str (lit "https://example.org/a")];
               [Str (lit "Add docs"); Int 6; Str (lit "Devin"); Str (lit "Plain text");
                Int 1; Str (lit "https://example.org/a")] ] |}.


Definition cls_once : DataFrame :=
  {| columns := ["PRID"; "PRTITLE"; "PRREASON"; "PRTYPE"; "CONFIDENCE"];
     data := [ [Int 5; Str (lit "Fix XSS vulnerability"); Str (lit "repairs"); Str (lit "fix");
                Float (lit "0.9")] ] |}.

(** A left frame without TITLE and a right frame that has one. *)
Definition pr_untitled : DataFrame :=
  {| columns := ["ID"; "AGENTNAME"]; data := [[Int 5; Str (lit "Copilot")]] |}.

Definition cls_titled (title : string) : DataFrame :=
  {| columns := ["PRID"; "PRTYPE"; "CONFIDENCE"; "TITLE"];
     data := [[Int 5; Str (lit "fix"); Float (lit "0.9"); Str (lit title)]] |}.

(** The same classification table as [read_csv] gives it when one more
    row has no id: the column of ids is then a column of floats. *)
Definition cls_float : DataFrame :=
  {| columns := ["PRID"; "PRTITLE"; "PRREASON"; "PRTYPE"; "CONFIDENCE"];
     data := [ [Float (lit "5.0"); Str (lit "Fix XSS vulnerability"); Str (lit "repairs");
                Str (lit "fix"); Float (lit "0.9")];
               [Float (lit "5.0"); Str (lit "Fix XSS vulnerability"); Str (lit "adds");
                Str (lit "feat"); Float (lit "0.4")];
               [Missing; Str (lit "Untracked"); Str (lit "none"); Str (lit "chore");
                Float (lit "0.1")] ] |}.

Definition cls_none : DataFrame :=
  {| columns := ["PRID"; "PRTITLE"; "PRREASON"; "PRTYPE"; "CONFIDENCE"]; data := [] |}.

(** A sample frame of commit details, with a commit message of two lines,
    a diff of three lines and a null diff. *)
Definition commit_sample : DataFrame :=
  {| columns := ["pr_id"; "sha"; "message"; "filename"; "status"; "additions";
                 "deletions"; "changes"; "patch"];
     data := [ [Int 5; Str (lit "1f3a"); Str (lit "Fix XSS" ++ [10] ++ lit "in the form");
                Str (lit "app.py");
                Str (lit "modified"); Int 2; Int 1; Int 3;
                Str (lit "@@ -1 +1 @@" ++ [10] ++ lit "-old" ++ [13; 10] ++ lit "+new")];
               [Int 6; Str (lit "9c0d"); Str (lit "Add docs"); Str (lit "a.bin");
                Str (lit "added"); Int 0; Int 0; Int 0; Missing] ] |}.

(** ASCII lower-casing as an instance of the interface: it is what
    [str.lower] does on ASCII text, and it is used to run examples. *)
#[global, refine] Instance ascii_PyLower : PyLower :=
  {| str_lower := fmap ascii_lower |}.
Proof. reflexivity. Defined.

(** * Properties *)

(** ** The text cleaner *)

Module TextFacts.
Import Text.

Lemma crlftab_is_control c : is_crlftab c = true -> is_control c = true.
Proof. unfold is_crlftab, is_control. intros. lia. Qed.

Lemma crlftab_is_space c : is_crlftab c = true -> py_isspace c = true.
Proof. unfold is_crlftab, py_isspace. intros. lia. Qed.

Lemma eqb_SP c : (c =? SP) = true <-> c = SP.
Proof. apply N.eqb_eq. Qed.

(** *** First substitution *)

Lemma sub_crlftab_cons_other c t :
  is_crlftab c = false -> sub_crlftab (c :: t) = c :: sub_crlftab t.
Proof. intros Hc. simpl. by rewrite Hc. Qed.

Lemma sub_crlftab_clean s : Forall (fun c => is_crlftab c = false) (sub_crlftab s).
Proof.
  induction s as [|c t IH]; [constructor|].
  simpl. destruct (is_crlftab c) eqn:Hc.
  - destruct t as [|d t']; [by repeat constructor|].
    destruct (is_crlftab d); [exact IH|]. by constructor.
  - by constructor.
Qed.

Lemma sub_crlftab_id s :
  Forall (fun c => is_crlftab c = false) s -> sub_crlftab s = s.
Proof.
  induction 1 as [|c t Hc _ IH]; [done|].
  by rewrite sub_crlftab_cons_other, IH.
Qed.

Lemma sub_crlftab_cons_run c d t :
  is_crlftab c = true -> is_crlftab d = true ->
  sub_crlftab (c :: d :: t) = sub_crlftab (d :: t).
Proof. intros Hc Hd. cbn [sub_crlftab]. by rewrite Hc, Hd. Qed.

Lemma sub_crlftab_cons_end c d t :
  is_crlftab c = true -> is_crlftab d = false ->
  sub_crlftab (c :: d :: t) = SP :: sub_crlftab (d :: t).
Proof. intros Hc Hd. cbn [sub_crlftab]. by rewrite Hc, Hd. Qed.

Lemma sub_crlftab_single c : is_crlftab c = true -> sub_crlftab [c] = [SP].
Proof. intros Hc. cbn. by rewrite Hc. Qed.

Lemma sub_crlftab_run_head run b :
  run <> [] -> Forall (fun c => is_crlftab c = true) run ->
  (forall d, head b = Some d -> is_crlftab d = false) ->
  sub_crlftab (run ++ b) = SP :: sub_crlftab b.
Proof.
  intros Hne Hrun Hb. induction Hrun as [|c run Hc Hrun IH]; [done|].
  destruct run as [|d run'].
  - destruct b as [|e b']; [by apply sub_crlftab_single|].
    apply sub_crlftab_cons_end; [done|]. by apply Hb.
  - inversion Hrun as [|? ? Hd _]; subst.
    change ((c :: d :: run') ++ b) with (c :: d :: (run' ++ b)).
    rewrite sub_crlftab_cons_run by done. by apply IH.
Qed.

Lemma sub_crlftab_run a run b :
  run <> [] -> Forall (fun c => is_crlftab c = true) run ->
  (forall d, last a = Some d -> is_crlftab d = false) ->
  (forall d, head b = Some d -> is_crlftab d = false) ->
  sub_crlftab (a ++ run ++ b) = sub_crlftab a ++ SP :: sub_crlftab b.
Proof.
  intros Hne Hrun Ha Hb. induction a as [|c a IH].
  - by apply (sub_crlftab_run_head run b).
  - destruct a as [|d a'].
    + assert (is_crlftab c = false) as Hc by (by apply Ha).
      change ([c] ++ run ++ b) with (c :: (run ++ b)).
      rewrite !sub_crlftab_cons_other by done.
      cbn [sub_crlftab app]. f_equal. by apply (sub_crlftab_run_head run b).
    + assert (sub_crlftab ((d :: a') ++ run ++ b)
              = sub_crlftab (d :: a') ++ SP :: sub_crlftab b) as IH'.
      { apply IH. intros e He. apply Ha. by rewrite last_cons_cons. }
      change ((c :: d :: a') ++ run ++ b) with (c :: d :: (a' ++ run ++ b)).
      change ((d :: a') ++ run ++ b) with (d :: (a' ++ run ++ b)) in IH'.
      destruct (is_crlftab c) eqn:Hc, (is_crlftab d) eqn:Hd.
      * by rewrite !sub_crlftab_cons_run.
      * rewrite !sub_crlftab_cons_end by done. by rewrite IH'.
      * rewrite !(sub_crlftab_cons_other c) by done. by rewrite IH'.
      * rewrite !(sub_crlftab_cons_other c) by done. by rewrite IH'.
Qed.

Lemma sub_crlftab_kept s : filter kept (sub_crlftab s) = filter kept s.
Proof.
  induction s as [|c t IH]; [done|].
  simpl. destruct (is_crlftab c) eqn:Hc.
  - rewrite (filter_cons_False kept c) by (intros [Hs _]; apply crlftab_is_space in Hc; congruence).
    destruct t as [|d t'].
    + by rewrite filter_cons_False by (by intros [? _]).
    + destruct (is_crlftab d); [done|].
      by rewrite filter_cons_False by (by intros [? _]).
  - rewrite !filter_cons. by rewrite IH.
Qed.


(** *** Second substitution *)

Lemma remove_control_clean s : Forall (fun c => is_control c = false) (remove_control s).
Proof. apply Forall_forall. intros c Hc. by apply list_elem_of_filter in Hc as [? _]. Qed.

Lemma remove_control_id s :
  Forall (fun c => is_control c = false) s -> remove_control s = s.
Proof.
  unfold remove_control. induction 1 as [|c t Hc _ IH]; [done|].
  by rewrite filter_cons_True, IH.
Qed.

Lemma remove_control_kept s : filter kept (remove_control s) = filter kept s.
Proof.
  unfold remove_control. induction s as [|c t IH]; [done|].
  destruct (is_control c) eqn:Hc.
  - rewrite filter_cons_False by congruence.
    by rewrite (filter_cons_False kept c) by (intros [_ ?]; congruence).
  - rewrite filter_cons_True by done. by rewrite !(filter_cons kept), IH.
Qed.

(** *** Third substitution *)

Lemma sub_spaces_cons_cons c d t :
  sub_spaces (c :: d :: t) =
  if (c =? SP) && (d =? SP) then sub_spaces (d :: t) else c :: sub_spaces (d :: t).
Proof. done. Qed.

Lemma sub_spaces_head s : head (sub_spaces s) = head s.
Proof.
  induction s as [|c [|d t] IH]; [done..|].
  rewrite sub_spaces_cons_cons.
  destruct (c =? SP) eqn:Hc, (d =? SP) eqn:Hd; try done.
  apply eqb_SP in Hc, Hd. cbn [andb]. rewrite IH. simpl. congruence.
Qed.

Lemma sub_spaces_Forall (P : N -> Prop) s : Forall P s -> Forall P (sub_spaces s).
Proof.
  induction s as [|c [|d t] IH]; [done..|].
  intros Hs. rewrite sub_spaces_cons_cons. inversion Hs; subst.
  destruct ((c =? SP) && (d =? SP)); [by apply IH|].
  constructor; [done|by apply IH].
Qed.

Lemma sub_spaces_no_pair s : no_sp_pair (sub_spaces s).
Proof.
  induction s as [|c [|d t] IH]; [done..|].
  rewrite sub_spaces_cons_cons.
  destruct ((c =? SP) && (d =? SP)) eqn:Hcd; [exact IH|].
  pose proof (sub_spaces_head (d :: t)) as Hh.
  destruct (sub_spaces (d :: t)) as [|e t'] eqn:He; [done|].
  simpl in Hh. injection Hh as ->. split; [|exact IH].
  intros [-> ->]. done.
Qed.

Lemma sub_spaces_id s : no_sp_pair s -> sub_spaces s = s.
Proof.
  induction s as [|c [|d t] IH]; [done..|].
  intros [Hcd Ht]. rewrite sub_spaces_cons_cons.
  destruct (c =? SP) eqn:Hc, (d =? SP) eqn:Hd; cbn [andb];
    try (by rewrite IH).
  apply eqb_SP in Hc, Hd. by destruct Hcd.
Qed.

Lemma SP_not_kept : ~ kept SP.
Proof. by intros [? _]. Qed.

Lemma sub_spaces_kept s : filter kept (sub_spaces s) = filter kept s.
Proof.
  induction s as [|c [|d t] IH]; [done..|].
  rewrite sub_spaces_cons_cons.
  destruct (c =? SP) eqn:Hc, (d =? SP) eqn:Hd; cbn [andb];
    try (by rewrite !(filter_cons kept c), IH).
  apply eqb_SP in Hc as ->.
  by rewrite (filter_cons_False kept SP) by apply SP_not_kept.
Qed.

Lemma sub_spaces_run_head n b :
  (0 < n)%nat -> (forall d, head b = Some d -> d <> SP) ->
  sub_spaces (replicate n SP ++ b) = SP :: sub_spaces b.
Proof.
  intros Hn Hb. induction n as [|[|n] IH]; [lia| |].
  - destruct b as [|e b']; [done|].
    change (replicate 1 SP ++ e :: b') with (SP :: e :: b').
    rewrite sub_spaces_cons_cons.
    destruct (e =? SP) eqn:He; [|done].
    apply eqb_SP in He. by destruct (Hb e).
  - change (replicate (S (S n)) SP ++ b) with (SP :: SP :: (replicate n SP ++ b)).
    rewrite sub_spaces_cons_cons. cbn [N.eqb Pos.eqb SP andb].
    apply IH. lia.
Qed.

Lemma sub_spaces_run a n b :
  (0 < n)%nat ->
  (forall d, last a = Some d -> d <> SP) ->
  (forall d, head b = Some d -> d <> SP) ->
  sub_spaces (a ++ replicate n SP ++ b) = sub_spaces a ++ SP :: sub_spaces b.
Proof.
  intros Hn Ha Hb. induction a as [|c [|d a'] IH].
  - by apply (sub_spaces_run_head n b).
  - assert (c <> SP) as Hc by (by apply Ha).
    destruct n as [|n]; [lia|].
    change ([c] ++ replicate (S n) SP ++ b) with (c :: SP :: (replicate n SP ++ b)).
    rewrite sub_spaces_cons_cons.
    destruct (c =? SP) eqn:Hc'; [by apply eqb_SP in Hc'|].
    cbn [andb sub_spaces app]. f_equal.
    by apply (sub_spaces_run_head (S n) b).
  - change ((c :: d :: a') ++ replicate n SP ++ b)
      with (c :: d :: (a' ++ replicate n SP ++ b)).
    rewrite !sub_spaces_cons_cons.
    change (d :: (a' ++ replicate n SP ++ b))
      with ((d :: a') ++ replicate n SP ++ b).
    rewrite IH; [by destruct ((c =? SP) && (d =? SP))|].
    intros e He. apply Ha. by rewrite last_cons_cons.
Qed.

(** *** Strip *)

Lemma lstrip_spec s :
  exists w, s = w ++ lstrip s /\ Forall (fun c => py_isspace c = true) w.
Proof.
  induction s as [|c t (w & Ht & Hw)]; [by exists []|].
  simpl. destruct (py_isspace c) eqn:Hc.
  - exists (c :: w). split; [by rewrite Ht at 1|by constructor].
  - by exists [].
Qed.

Lemma lstrip_head s c : head (lstrip s) = Some c -> py_isspace c = false.
Proof.
  induction s as [|d t IH]; [done|].
  simpl. destruct (py_isspace d) eqn:Hd; [done|].
  simpl. congruence.
Qed.

Lemma lstrip_id s :
  (forall c, head s = Some c -> py_isspace c = false) -> lstrip s = s.
Proof. destruct s as [|c t]; [done|]. intros Hs. simpl. by rewrite (Hs c). Qed.

Lemma lstrip_app_space w s :
  Forall (fun c => py_isspace c = true) w -> lstrip (w ++ s) = lstrip s.
Proof. induction 1 as [|c w Hc _ IH]; [done|]. simpl. by rewrite Hc. Qed.

Lemma rstrip_spec s :
  exists w, s = rstrip s ++ w /\ Forall (fun c => py_isspace c = true) w.
Proof.
  induction s as [|c t (w & Ht & Hw)]; [by exists []|].
  simpl. destruct (rstrip t) as [|d t'] eqn:Hr.
  - destruct (py_isspace c) eqn:Hc.
    + exists (c :: w). simpl in Ht. split; [by rewrite Ht at 1|by constructor].
    + exists w. simpl in *. by rewrite Ht at 1.
  - exists w. split; [|done]. simpl. by rewrite Ht at 1.
Qed.

Lemma rstrip_last s c : last (rstrip s) = Some c -> py_isspace c = false.
Proof.
  induction s as [|d t IH]; [done|].
  simpl. destruct (rstrip t) as [|e t'] eqn:Hr.
  - destruct (py_isspace d) eqn:Hd; [done|]. simpl. congruence.
  - by rewrite last_cons_cons.
Qed.

Lemma rstrip_space w :
  Forall (fun c => py_isspace c = true) w -> rstrip w = [].
Proof. induction 1 as [|c w Hc _ IH]; [done|]. simpl. by rewrite IH, Hc. Qed.

Lemma rstrip_app_space s w :
  Forall (fun c => py_isspace c = true) w -> rstrip (s ++ w) = rstrip s.
Proof.
  intros Hw. induction s as [|c t IH]; [by apply rstrip_space|].
  simpl. by rewrite IH.
Qed.

Lemma rstrip_id s :
  (forall c, last s = Some c -> py_isspace c = false) -> rstrip s = s.
Proof.
  induction s as [|c [|d t] IH]; [done| |].
  - intros Hs. simpl. by rewrite (Hs c).
  - intros Hs. change (rstrip (c :: d :: t)) with
      (match rstrip (d :: t) with
       | [] => if py_isspace c then [] else [c]
       | t' => c :: t'
       end).
    rewrite IH; [done|]. intros e He. apply Hs. by rewrite last_cons_cons.
Qed.

Lemma strip_spec s :
  exists w1 w2, s = w1 ++ strip s ++ w2
    /\ Forall (fun c => py_isspace c = true) w1
    /\ Forall (fun c => py_isspace c = true) w2.
Proof.
  destruct (lstrip_spec s) as (w1 & Hs & Hw1).
  destruct (rstrip_spec (lstrip s)) as (w2 & Hl & Hw2).
  exists w1, w2. unfold strip. by rewrite <- Hl.
Qed.

Lemma strip_core w1 core w2 :
  Forall (fun c => py_isspace c = true) w1 ->
  Forall (fun c => py_isspace c = true) w2 ->
  (forall c, head core = Some c -> py_isspace c = false) ->
  (forall c, last core = Some c -> py_isspace c = false) ->
  strip (w1 ++ core ++ w2) = core.
Proof.
  intros Hw1 Hw2 Hh Hl. unfold strip.
  rewrite lstrip_app_space by done.
  destruct core as [|c t].
  - simpl. destruct (lstrip_spec w2) as (w & Hw & _).
    apply rstrip_space. rewrite Hw in Hw2. by apply Forall_app in Hw2 as [_ ?].
  - rewrite lstrip_id.
    + rewrite rstrip_app_space by done. by apply rstrip_id.
    + intros e He. simpl in He. apply Hh. simpl. congruence.
Qed.

Lemma strip_id s :
  (forall c, head s = Some c -> py_isspace c = false) ->
  (forall c, last s = Some c -> py_isspace c = false) ->
  strip s = s.
Proof.
  intros Hh Hl. pose proof (strip_core [] s [] (Forall_nil_2 _) (Forall_nil_2 _) Hh Hl) as E.
  by rewrite app_nil_r in E.
Qed.

Lemma strip_head s c : head (strip s) = Some c -> py_isspace c = false.
Proof.
  unfold strip. intros Hc. apply (lstrip_head s).
  destruct (rstrip_spec (lstrip s)) as (w & Hl & _).
  rewrite Hl. destruct (rstrip (lstrip s)); [done|exact Hc].
Qed.

Lemma strip_last s c : last (strip s) = Some c -> py_isspace c = false.
Proof. apply rstrip_last. Qed.

Lemma space_filter_kept w :
  Forall (fun c => py_isspace c = true) w -> filter kept w = [].
Proof.
  induction 1 as [|c w Hc _ IH]; [done|].
  rewrite filter_cons_False; [done|]. intros [? _]. congruence.
Qed.

Lemma strip_kept s : filter kept (strip s) = filter kept s.
Proof.
  destruct (strip_spec s) as (w1 & w2 & Hs & Hw1 & Hw2).
  rewrite Hs at 2.
  rewrite !filter_app, (space_filter_kept w1), (space_filter_kept w2) by done.
  by rewrite app_nil_r.
Qed.

Lemma strip_Forall (P : N -> Prop) s : Forall P s -> Forall P (strip s).
Proof.
  destruct (strip_spec s) as (w1 & w2 & Hs & _). intros H.
  rewrite Hs in H. apply Forall_app in H as [_ H]. by apply Forall_app in H as [H _].
Qed.

Lemma no_sp_pair_app a b : no_sp_pair (a ++ b) -> no_sp_pair a /\ no_sp_pair b.
Proof.
  induction a as [|c [|d a'] IH].
  - done.
  - intros H. split; [done|]. destruct b; [done|]. by destruct H.
  - intros [Hcd H]. apply IH in H as [? ?]. by repeat split.
Qed.

Lemma strip_no_pair s : no_sp_pair s -> no_sp_pair (strip s).
Proof.
  destruct (strip_spec s) as (w1 & w2 & Hs & _). intros H.
  rewrite Hs in H. apply no_sp_pair_app in H as [_ H].
  by apply no_sp_pair_app in H as [H _].
Qed.

Lemma no_sp_pair_spec s :
  no_sp_pair s -> forall pre post, s <> pre ++ [SP; SP] ++ post.
Proof.
  intros H pre post ->. apply no_sp_pair_app in H as [_ H].
  destruct H as [H _]. by apply H.
Qed.

End TextFacts.

Section CleanDiff.
Import Text TextFacts.

Lemma control_free_crlftab_free s :
  Forall (fun c => is_control c = false) s -> Forall (fun c => is_crlftab c = false) s.
Proof.
  intros Hs. eapply Forall_impl; [exact Hs|]. intros c Hc. simpl in Hc.
  destruct (is_crlftab c) eqn:E; [|done].
  apply crlftab_is_control in E. congruence.
Qed.

Lemma clean_str_control_free s : Forall (fun c => is_control c = false) (clean_str s).
Proof. apply strip_Forall, sub_spaces_Forall, remove_control_clean. Qed.

Lemma clean_str_no_pair s : no_sp_pair (clean_str s).
Proof. apply strip_no_pair, sub_spaces_no_pair. Qed.

Lemma clean_str_kept s : filter kept (clean_str s) = filter kept s.
Proof.
  unfold clean_str.
  by rewrite strip_kept, sub_spaces_kept, remove_control_kept, sub_crlftab_kept.
Qed.

Lemma clean_str_fixed s :
  Forall (fun c => is_control c = false) s -> no_sp_pair s ->
  (forall c, head s = Some c -> py_isspace c = false) ->
  (forall c, last s = Some c -> py_isspace c = false) ->
  clean_str s = s.
Proof.
  intros Hc Hp Hh Hl. unfold clean_str.
  rewrite sub_crlftab_id by (by apply control_free_crlftab_free).
  rewrite remove_control_id by done.
  rewrite sub_spaces_id by done.
  by apply strip_id.
Qed.

Lemma clean_str_idempotent s : clean_str (clean_str s) = clean_str s.
Proof.
  apply clean_str_fixed.
  - apply clean_str_control_free.
  - apply clean_str_no_pair.
  - apply strip_head.
  - apply strip_last.
Qed.

Lemma is_control_range c :
  is_control c = false <-> 31 < c /\ ~ (127 <= c <= 159).
Proof. unfold is_control. lia. Qed.

Lemma is_crlftab_values c :
  is_crlftab c = false <-> c <> 13 /\ c <> 10 /\ c <> 9.
Proof. unfold is_crlftab. lia. Qed.

End CleanDiff.

(** C4.  The output of [clean_diff] holds no carriage return (13), line
    feed (10) or tab (9) and no code point of the C0 range, DEL or the C1
    range; it holds no two adjacent spaces and neither starts nor ends with
    whitespace.  On a string the cleaner is the composition of four stages,
    each with its law: a maximal run of CR/LF/tab becomes one space, control
    characters are dropped, a maximal run of spaces becomes one space, and
    the whitespace around the core is trimmed.  No character outside
    whitespace and the control ranges is lost or added.  The scenario
    ["fix bug\r\n\tline2"] gives ["fix bug line2"]. *)
Theorem clean_diff_sanitizes (text : cell) :
  Forall (fun c => (c <> 13 /\ c <> 10 /\ c <> 9) /\ 31 < c /\ ~ (127 <= c <= 159))
         (clean_diff text)
  /\ (forall pre post, clean_diff text <> pre ++ [32; 32] ++ post)
  /\ (forall c, head (clean_diff text) = Some c -> Text.py_isspace c = false)
  /\ (forall c, last (clean_diff text) = Some c -> Text.py_isspace c = false)
  /\ (isna text = false ->
      clean_diff text
      = Text.strip (Text.sub_spaces (Text.remove_control (Text.sub_crlftab (py_str text))))
      /\ filter Text.kept (clean_diff text) = filter Text.kept (py_str text))
  /\ (forall a run b,
        run <> [] -> Forall (fun c => c = 13 \/ c = 10 \/ c = 9) run ->
        (forall d, last a = Some d -> d <> 13 /\ d <> 10 /\ d <> 9) ->
        (forall d, head b = Some d -> d <> 13 /\ d <> 10 /\ d <> 9) ->
        Text.sub_crlftab (a ++ run ++ b)
        = Text.sub_crlftab a ++ 32 :: Text.sub_crlftab b)
  /\ (forall s, Forall (fun c => c <> 13 /\ c <> 10 /\ c <> 9) s -> Text.sub_crlftab s = s)
  /\ (forall s, Text.remove_control s
                = filter (fun c => 31 < c /\ ~ (127 <= c <= 159)) s)
  /\ (forall a n b,
        (2 <= n)%nat ->
        (forall d, last a = Some d -> d <> 32) ->
        (forall d, head b = Some d -> d <> 32) ->
        Text.sub_spaces (a ++ replicate n 32 ++ b)
        = Text.sub_spaces a ++ 32 :: Text.sub_spaces b)
  /\ (forall s, (forall pre post, s <> pre ++ [32; 32] ++ post) -> Text.sub_spaces s = s)
  /\ (forall w1 core w2,
        Forall (fun c => Text.py_isspace c = true) w1 ->
        Forall (fun c => Text.py_isspace c = true) w2 ->
        (forall c, head core = Some c -> Text.py_isspace c = false) ->
        (forall c, last core = Some c -> Text.py_isspace c = false) ->
        Text.strip (w1 ++ core ++ w2) = core)
  /\ clean_diff (Str (lit "fix bug" ++ [13; 10; 9] ++ lit "line2")) = lit "fix bug line2".
Proof.
  assert (Forall (fun c => Text.is_control c = false) (clean_diff text)) as Hctl.
  { unfold clean_diff. destruct (isna text); [constructor|apply clean_str_control_free]. }
  assert (Text.no_sp_pair (clean_diff text)) as Hpair.
  { unfold clean_diff. destruct (isna text); [done|apply clean_str_no_pair]. }
  split_and!.
  - pose proof (control_free_crlftab_free _ Hctl) as Hcr.
    apply Forall_forall. intros c Hc.
    rewrite Forall_forall in Hctl, Hcr.
    split; [by apply is_crlftab_values, Hcr|by apply is_control_range, Hctl].
  - by apply TextFacts.no_sp_pair_spec.
  - unfold clean_diff. destruct (isna text); [done|apply TextFacts.strip_head].
  - unfold clean_diff. destruct (isna text); [done|apply TextFacts.strip_last].
  - intros Hna. unfold clean_diff. rewrite Hna. split; [done|apply clean_str_kept].
  - intros a run b Hne Hrun Ha Hb. apply TextFacts.sub_crlftab_run; [done|..].
    + eapply Forall_impl; [exact Hrun|]. intros c Hc. simpl in Hc.
      by destruct Hc as [->|[->| ->]].
    + intros d Hd. by apply is_crlftab_values, Ha.
    + intros d Hd. by apply is_crlftab_values, Hb.
  - intros s Hs. apply TextFacts.sub_crlftab_id.
    eapply Forall_impl; [exact Hs|]. intros c Hc. by apply is_crlftab_values.
  - intros s. unfold Text.remove_control. apply list_filter_iff.
    intros c. apply is_control_range.
  - intros a n b Hn Ha Hb. apply TextFacts.sub_spaces_run; [lia|done..].
  - intros s Hs. apply TextFacts.sub_spaces_id.
    clear -Hs. induction s as [|c [|d t] IH]; [done..|].
    split.
    + intros [-> ->]. by apply (Hs [] t).
    + apply IH. intros pre post E. apply (Hs (c :: pre) post). by rewrite E.
  - intros w1 core w2. apply TextFacts.strip_core.
  - reflexivity.
Qed.

Lemma clean_diff_sanitizes_witness :
  head (clean_diff (Str (lit " a" ++ [10; 13] ++ lit "b "))) = Some 97
  /\ Text.py_isspace 97 = false.
Proof.
  split; [reflexivity|].
  apply (proj1 (proj2 (proj2 (clean_diff_sanitizes (Str (lit " a" ++ [10; 13] ++ lit "b ")))))).
  reflexivity.
Defined.

(** C7.  Cleaning is idempotent: cleaning the string that [clean_diff]
    returned gives that string again. *)
Theorem clean_diff_idempotent (x : cell) :
  clean_diff (Str (clean_diff x)) = clean_diff x.
Proof.
  unfold clean_diff. cbn [isna py_str].
  destruct (isna x); [reflexivity|apply clean_str_idempotent].
Qed.




(** ** Frames *)

Section FrameFacts.

Lemma bind_Ok {A B} (r : result A) (k : A -> result B) b :
  bind r k = Ok b -> exists a, r = Ok a /\ k a = Ok b.
Proof. destruct r as [a|e]; [|done]. intros Hk. by exists a. Qed.

Lemma col_index_Some name cols i :
  col_index name cols = Some i -> cols !! i = Some name.
Proof.
  unfold col_index. destruct (list_find _ cols) as [[k c]|] eqn:Hf; [|done].
  intros [= ->]. apply list_find_Some in Hf as (Hk & -> & _). done.
Qed.

Lemma col_index_None name cols : col_index name cols = None <-> name ∉ cols.
Proof.
  unfold col_index. rewrite fmap_None, list_find_None, Forall_forall.
  split.
  - intros Hn Hin. by apply (Hn name).
  - intros Hn c Hc ->. done.
Qed.

Lemma col_index_elem name cols :
  name ∈ cols -> exists i, col_index name cols = Some i.
Proof.
  intros Hin. destruct (col_index name cols) as [i|] eqn:E; [by exists i|].
  by apply col_index_None in E.
Qed.

Lemma col_index_lt name cols i : col_index name cols = Some i -> (i < length cols)%nat.
Proof. intros Hi. apply col_index_Some in Hi. by apply lookup_lt_Some in Hi. Qed.

Lemma col_index_app_l name cols more i :
  col_index name cols = Some i -> col_index name (cols ++ more) = Some i.
Proof.
  unfold col_index. destruct (list_find _ cols) as [[k c]|] eqn:Hf; [|done].
  intros [= ->]. by rewrite (list_find_app_l _ _ _ _ _ Hf).
Qed.

Lemma positions_spec name cols p :
  p ∈ positions name cols <-> cols !! p = Some name.
Proof.
  unfold positions. rewrite list_elem_of_filter, elem_of_seq. split; [by intros [? _]|].
  intros Hp. split; [done|]. apply lookup_lt_Some in Hp. lia.
Qed.

Lemma positions_nil name cols : positions name cols = [] <-> name ∉ cols.
Proof.
  split.
  - intros Hp Hin. apply list_elem_of_lookup in Hin as [i Hi].
    apply positions_spec in Hi. rewrite Hp in Hi. by apply not_elem_of_nil in Hi.
  - intros Hn. destruct (positions name cols) as [|p ps] eqn:E; [done|].
    assert (p ∈ positions name cols) as Hp by (rewrite E; left).
    apply positions_spec in Hp. destruct Hn. by eapply list_elem_of_lookup_2.
Qed.

Lemma getitem_list_inv names df out :
  getitem_list names df = Ok out ->
  out = {| columns := omap (fun p => columns df !! p)
                        (names ≫= (fun n => positions n (columns df)));
           data := (fun r => (fun p => cell_at p r)
                               <$> (names ≫= (fun n => positions n (columns df))))
                     <$> data df |}
  /\ (forall n, n ∈ names -> n ∈ columns df).
Proof.
  unfold getitem_list.
  destruct (filter _ names) as [|n0 ms] eqn:Hf; [|done].
  intros [= <-]. split; [done|].
  intros n Hn. destruct (decide (n ∈ columns df)) as [|Hno]; [done|].
  assert (n ∈ filter (fun n => n ∉ columns df) names) as Hin
    by (by apply list_elem_of_filter).
  rewrite Hf in Hin. by apply not_elem_of_nil in Hin.
Qed.

Lemma getitem_list_missing names df name :
  name ∈ names -> name ∉ columns df ->
  exists missing, getitem_list names df = Err (KeyError missing)
    /\ name ∈ missing
    /\ forall n, n ∈ missing <-> n ∈ names /\ n ∉ columns df.
Proof.
  intros Hin Hno. unfold getitem_list.
  assert (name ∈ filter (fun n => n ∉ columns df) names) as Hm
    by (by apply list_elem_of_filter).
  destruct (filter _ names) as [|n0 ms] eqn:Hf.
  - by apply not_elem_of_nil in Hm.
  - exists (n0 :: ms). split; [done|]. split; [done|].
    intros n. rewrite <- Hf, list_elem_of_filter. tauto.
Qed.

Lemma getitem_list_present names df :
  (forall n, n ∈ names -> n ∈ columns df) ->
  is_ok (getitem_list names df).
Proof.
  intros Hall. unfold getitem_list.
  destruct (filter _ names) as [|n0 ms] eqn:Hf; [done|].
  assert (n0 ∈ filter (fun n => n ∉ columns df) names) as Hm by (rewrite Hf; left).
  apply list_elem_of_filter in Hm as [Hno Hin]. destruct Hno. by apply Hall.
Qed.

Lemma rename_columns_elem m df name :
  name ∈ columns (rename m df) <->
  exists c, c ∈ columns df /\ rename_label m c = name.
Proof.
  simpl. rewrite list_elem_of_fmap. split; intros (c & ? & ?); exists c; done.
Qed.

Lemma apply_column_columns name f df out :
  apply_column name f df = Ok out -> columns out = columns df.
Proof.
  unfold apply_column. destruct (positions name (columns df)) as [|i [|i' ps]].
  - done.
  - by intros [= <-].
  - destruct (data df); [by intros [= <-]|done].
Qed.

Lemma apply_column_data name f df out :
  wf_frame df -> apply_column name f df = Ok out ->
  data out = (fun r => (fun p => if decide (columns df !! p = Some name)
                                 then f (cell_at p r) else cell_at p r)
                       <$> seq 0 (length (columns df))) <$> data df.
Proof.
  intros Hwf. unfold apply_column.
  destruct (positions name (columns df)) as [|i [|i' ps]] eqn:Hp; [done| |].
  - intros [= <-]. simpl. apply Forall_fmap_ext_1.
    eapply Forall_impl; [exact Hwf|]. intros r Hr. simpl in Hr.
    apply list_eq. intros k. rewrite list_lookup_fmap.
    destruct (decide (k < length (columns df))%nat) as [Hk|Hk].
    + rewrite lookup_seq_lt by done. simpl.
      assert (is_Some (r !! k)) as [v Hv] by (apply lookup_lt_is_Some; lia).
      unfold cell_at. rewrite Hv. simpl.
      destruct (decide (columns df !! k = Some name)) as [Hn|Hn].
      * apply positions_spec in Hn. rewrite Hp in Hn.
        apply list_elem_of_singleton in Hn as ->.
        by rewrite list_lookup_alter_eq, Hv.
      * rewrite list_lookup_alter_ne; [done|].
        intros ->. apply Hn, positions_spec. rewrite Hp. left.
    + rewrite lookup_seq_ge by lia. simpl.
      apply lookup_ge_None. rewrite length_alter. lia.
  - destruct (data df) eqn:E; [|done]. intros [= <-]. by rewrite E.
Qed.

End FrameFacts.

Section Projection.

Lemma no_source_spec m df name : no_source m df name <-> name ∉ columns (rename m df).
Proof.
  rewrite rename_columns_elem. unfold no_source. split.
  - intros Hn (c & Hc & E). by apply (Hn c).
  - intros Hn c Hc E. apply Hn. by exists c.
Qed.

Lemma project_missing m order df name :
  name ∈ order -> no_source m df name ->
  exists missing, project m order df = Err (KeyError missing)
    /\ name ∈ missing
    /\ forall n, n ∈ missing <-> n ∈ order /\ no_source m df n.
Proof.
  intros Hin Hno. apply no_source_spec in Hno.
  destruct (getitem_list_missing order (rename m df) name Hin Hno)
    as (missing & E & Hm & Hall).
  exists missing. split; [exact E|]. split; [exact Hm|].
  intros n. rewrite Hall. by rewrite no_source_spec.
Qed.

Lemma project_present m order df :
  (forall n, n ∈ order -> ~ no_source m df n) -> is_ok (project m order df).
Proof.
  intros Hall. apply getitem_list_present. intros n Hn.
  destruct (decide (n ∈ columns (rename m df))) as [|Hno]; [done|].
  apply no_source_spec in Hno. by destruct (Hall n Hn).
Qed.

Lemma produce_task4_missing df name :
  name ∈ task4_order -> no_source task4_map df name ->
  exists e, produce_task4 df = Err e.
Proof.
  intros Hin Hno. apply no_source_spec in Hno. unfold produce_task4.
  destruct (apply_column "PRDIFF" _ (rename task4_map df)) as [out|e] eqn:Ha;
    [|by exists e].
  apply apply_column_columns in Ha. simpl bind.
  destruct (getitem_list_missing task4_order out name Hin) as (missing & E & _).
  - by rewrite Ha.
  - by exists (KeyError missing).
Qed.

Lemma positions_bind_lt names cols :
  Forall (fun p => (p < length cols)%nat) (names ≫= (fun n => positions n cols)).
Proof.
  apply Forall_forall. intros p Hp.
  apply list_elem_of_bind in Hp as (n & Hp & _).
  apply positions_spec in Hp. by apply lookup_lt_Some in Hp.
Qed.

Lemma project_data m order df out :
  project m order df = Ok out ->
  data out = (fun r => (fun p => cell_at p r)
                <$> (order ≫= (fun n => positions n (rename_label m <$> columns df))))
             <$> data df.
Proof. intros Hp. by apply getitem_list_inv in Hp as [-> _]. Qed.

Lemma clean_then_select m order name f df out :
  wf_frame df ->
  bind (apply_column name f (rename m df)) (getitem_list order) = Ok out ->
  data out =
    (fun r => (fun p => if decide ((rename_label m <$> columns df) !! p = Some name)
                        then f (cell_at p r) else cell_at p r)
              <$> (order ≫= (fun n => positions n (rename_label m <$> columns df))))
    <$> data df.
Proof.
  intros Hwf Hp.
  apply bind_Ok in Hp as (out1 & Ha & Hg).
  pose proof (apply_column_columns _ _ _ _ Ha) as Hcols.
  apply apply_column_data in Ha.
  2:{ unfold wf_frame in *. cbn [rename columns data]. by rewrite length_fmap. }
  apply getitem_list_inv in Hg as [-> _]. cbn [rename columns data] in *.
  rewrite Hcols, Ha, <- list_fmap_compose.
  apply list_fmap_ext. intros _ r _. cbn [compose].
  apply Forall_fmap_ext_1.
  eapply Forall_impl; [apply positions_bind_lt|].
  intros p Hp. cbn beta in Hp. unfold cell_at at 1.
  by rewrite list_lookup_fmap, lookup_seq_lt.
Qed.

Lemma produce_task4_data df out :
  wf_frame df -> produce_task4 df = Ok out ->
  data out =
    (fun r => (fun p => if decide ((rename_label task4_map <$> columns df) !! p = Some "PRDIFF")
                        then Str (clean_diff (cell_at p r)) else cell_at p r)
              <$> (task4_order ≫= (fun n => positions n (rename_label task4_map <$> columns df))))
    <$> data df.
Proof.
  intros Hwf Hp.
  exact (clean_then_select task4_map task4_order "PRDIFF"
           (fun c => Str (clean_diff c)) df out Hwf Hp).
Qed.

Lemma produce_task4_present df :
  (forall n, n ∈ task4_order -> ~ no_source task4_map df n) ->
  length (positions "PRDIFF" (rename_label task4_map <$> columns df)) = 1%nat
  \/ data df = [] ->
  is_ok (produce_task4 df).
Proof.
  intros Hall Hone. unfold produce_task4.
  assert (forall n, n ∈ task4_order -> n ∈ columns (rename task4_map df)) as Hin.
  { intros n Hn. destruct (decide (n ∈ columns (rename task4_map df))) as [|Hno]; [done|].
    apply no_source_spec in Hno. by destruct (Hall n Hn). }
  destruct (apply_column "PRDIFF" (fun c => Str (clean_diff c)) (rename task4_map df))
    as [out1|e] eqn:Ha.
  - cbn [bind]. apply getitem_list_present. intros n Hn.
    rewrite (apply_column_columns _ _ _ _ Ha). by apply Hin.
  - exfalso. unfold apply_column in Ha. cbn [rename columns data] in Ha.
    destruct (positions "PRDIFF" (rename_label task4_map <$> columns df))
      as [|i [|i' ps]] eqn:Hpos.
    + apply positions_nil in Hpos. apply Hpos. apply (Hin "PRDIFF").
      apply (bool_decide_unpack _). by vm_compute.
    + done.
    + destruct Hone as [Hlen|Hnil]; [done|]. by rewrite Hnil in Ha.
Qed.

Lemma produce_task4_needs df out :
  produce_task4 df = Ok out ->
  (forall n, n ∈ task4_order -> ~ no_source task4_map df n)
  /\ (length (positions "PRDIFF" (rename_label task4_map <$> columns df)) = 1%nat
      \/ data df = []).
Proof.
  intros Hp. unfold produce_task4 in Hp. apply bind_Ok in Hp as (out1 & Ha & Hg).
  split.
  - intros n Hn Hno. apply no_source_spec in Hno. apply Hno.
    apply getitem_list_inv in Hg as [_ Hin].
    rewrite <- (apply_column_columns _ _ _ _ Ha). by apply Hin.
  - unfold apply_column in Ha. cbn [rename columns data] in Ha.
    destruct (positions "PRDIFF" (rename_label task4_map <$> columns df))
      as [|i [|i' ps]]; [done|by left|].
    right. by destruct (data df).
Qed.

Lemma task4_diff_source c :
  rename_label task4_map c = "PRDIFF" <-> c = "patch" \/ c = "PRDIFF".
Proof.
  unfold rename_label, task4_map.
  repeat (rewrite lookup_insert; case_decide;
          [subst c; simpl; split; [by intros ?|by intros [?|?]]|]).
  rewrite lookup_singleton. case_decide.
  - subst c. simpl. split; [by left|done].
  - simpl. split; [by right|]. by intros [?|?].
Qed.

End Projection.

(** C5.  A projection whose declared output order names a label that no
    source column carries after renaming fails with a KeyError naming that
    label, in the generic projection and in each of the four tasks, also
    for the table of scenario D; it succeeds when every label of the order
    has a source column, whatever the cells hold. *)
Theorem missing_output_column_fails (df : DataFrame) (name : string) :
  (forall m order, name ∈ order -> no_source m df name ->
     exists missing, project m order df = Err (KeyError missing)
       /\ name ∈ missing
       /\ forall n, n ∈ missing <-> n ∈ order /\ no_source m df n)
  /\ (name ∈ task1_order -> no_source task1_map df name ->
      exists missing, produce_task1 df = Err (KeyError missing) /\ name ∈ missing)
  /\ (name ∈ task2_order -> no_source task2_map df name ->
      exists missing, produce_task2 df = Err (KeyError missing) /\ name ∈ missing)
  /\ (name ∈ task3_order -> no_source task3_map df name ->
      exists missing, produce_task3 df = Err (KeyError missing) /\ name ∈ missing)
  /\ (name ∈ task4_order -> no_source task4_map df name ->
      exists e, produce_task4 df = Err e)
  /\ (forall m order, (forall n, n ∈ order -> ~ no_source m df n) ->
      is_ok (project m order df))
  /\ project {[ "id" := "ID" ]} ["ID"; "MISSING"]
       {| columns := ["id"]; data := [[Int 1]] |} = Err (KeyError ["MISSING"]).
Proof.
  split_and!.
  - intros m order. apply project_missing.
  - intros Hin Hno.
    destruct (project_missing task1_map task1_order df name Hin Hno) as (ms & E & Hm & _).
    by exists ms.
  - intros Hin Hno.
    destruct (project_missing task2_map task2_order df name Hin Hno) as (ms & E & Hm & _).
    by exists ms.
  - intros Hin Hno.
    destruct (project_missing task3_map task3_order df name Hin Hno) as (ms & E & Hm & _).
    by exists ms.
  - apply produce_task4_missing.
  - intros m order. apply project_present.
  - reflexivity.
Qed.

Lemma missing_output_column_fails_witness :
  exists missing,
    produce_task1 {| columns := ["id"; "title"; "agent"; "repo_id"; "repo_url"];
                     data := [[Int 7; Str (lit "t"); Str (lit "a"); Int 1; Str (lit "u")]] |}
    = Err (KeyError missing) /\ "BODYSTRING" ∈ missing.
Proof.
  apply (proj1 (proj2 (missing_output_column_fails
    {| columns := ["id"; "title"; "agent"; "repo_id"; "repo_url"];
       data := [[Int 7; Str (lit "t"); Str (lit "a"); Int 1; Str (lit "u")]] |}
    "BODYSTRING"))).
  - apply (bool_decide_unpack _). vm_compute. exact I.
  - intros c Hc.
    repeat (apply elem_of_cons in Hc as [->|Hc]; [vm_compute; discriminate|]).
    by apply not_elem_of_nil in Hc.
Defined.

(** C6.  A projection succeeds when every label of its order has a source
    column, and every cell it writes is the input cell of the same row at
    the selected position, untouched; tasks 1 to 3 are such projections
    (titles and bodies included).  Task 4 succeeds exactly when every label
    of its order has a source column and one column alone is labelled
    PRDIFF after renaming (or the table has no row); every cell it writes
    is the input cell, untouched, except under PRDIFF, where it is
    [clean_diff] of the input cell; under the rename map of task 4 that is
    the source column [patch]. *)
Theorem only_patch_is_cleaned (df : DataFrame) (Hwf : wf_frame df) :
  (forall m order,
     let ps := order ≫= (fun n => positions n (rename_label m <$> columns df)) in
     Forall (fun p => (p < length (columns df))%nat) ps
     /\ ((forall n, n ∈ order -> ~ no_source m df n) ->
         exists out, project m order df = Ok out
           /\ data out = (fun r => (fun p => cell_at p r) <$> ps) <$> data df)
     /\ (forall out, project m order df = Ok out ->
           data out = (fun r => (fun p => cell_at p r) <$> ps) <$> data df))
  /\ produce_task1 df = project task1_map task1_order df
  /\ produce_task2 df = project task2_map task2_order df
  /\ produce_task3 df = project task3_map task3_order df
  /\ (let cols := rename_label task4_map <$> columns df in
      let ps := task4_order ≫= (fun n => positions n cols) in
      let cleaned :=
        (fun r => (fun p => if decide (cols !! p = Some "PRDIFF")
                            then Str (clean_diff (cell_at p r)) else cell_at p r) <$> ps)
        <$> data df in
      Forall (fun p => (p < length (columns df))%nat) ps
      /\ ((forall n, n ∈ task4_order -> ~ no_source task4_map df n) ->
          length (positions "PRDIFF" cols) = 1%nat \/ data df = [] ->
          exists out, produce_task4 df = Ok out /\ data out = cleaned)
      /\ (forall out, produce_task4 df = Ok out ->
            (forall n, n ∈ task4_order -> ~ no_source task4_map df n)
            /\ (length (positions "PRDIFF" cols) = 1%nat \/ data df = [])
            /\ data out = cleaned))
  /\ (forall c, rename_label task4_map c = "PRDIFF" <-> c = "patch" \/ c = "PRDIFF").
Proof.
  split_and!; try reflexivity.
  - intros m order. cbv zeta. split_and!.
    + rewrite <- (length_fmap (rename_label m)). apply positions_bind_lt.
    + intros Hall. pose proof (project_present m order df Hall) as Hok.
      destruct (project m order df) as [out|e] eqn:Hp; [|done].
      exists out. split; [done|]. by apply project_data.
    + intros out Hp. by apply project_data.
  - cbv zeta. split_and!.
    + rewrite <- (length_fmap (rename_label task4_map)). apply positions_bind_lt.
    + intros Hall Hone. pose proof (produce_task4_present df Hall Hone) as Hok.
      destruct (produce_task4 df) as [out|e] eqn:Hp; [|done].
      exists out. split; [done|]. by apply produce_task4_data.
    + intros out Hp. destruct (produce_task4_needs df out Hp) as [Hall Hone].
      split_and!; [done..|]. by apply produce_task4_data.
  - apply task4_diff_source.
Qed.

Lemma only_patch_is_cleaned_witness :
  (exists out, produce_task4 commit_sample = Ok out
     /\ data out
        = [ [Int 5; Str (lit "1f3a"); Str (lit "Fix XSS" ++ [10] ++ lit "in the form");
             Str (lit "app.py"); Str (lit "modified"); Int 2; Int 1; Int 3;
             Str (lit "@@ -1 +1 @@ -old +new")];
            [Int 6; Str (lit "9c0d"); Str (lit "Add docs"); Str (lit "a.bin");
             Str (lit "added"); Int 0; Int 0; Int 0; Str []] ])
  /\ (exists out, produce_task1 pr_sample = Ok out /\ data out = data pr_sample).
Proof.
  split.
  - destruct (only_patch_is_cleaned commit_sample ltac:(repeat constructor))
      as (_ & _ & _ & _ & (_ & Hrun & _) & _).
    destruct Hrun as (out & Hok & Hdata).
    + intros n Hn Hno. apply no_source_spec in Hno. apply Hno.
      repeat (apply elem_of_cons in Hn as [->|Hn];
              [apply (bool_decide_unpack _); vm_compute; exact I|]).
      by apply not_elem_of_nil in Hn.
    + left. vm_compute. reflexivity.
    + exists out. split; [exact Hok|]. rewrite Hdata. vm_compute. reflexivity.
  - destruct (only_patch_is_cleaned pr_sample ltac:(repeat constructor))
      as (Hproj & _).
    destruct (Hproj task1_map task1_order) as (_ & Hrun & _).
    destruct Hrun as (out & Hok & Hdata).
    + intros n Hn Hno. apply no_source_spec in Hno. apply Hno.
      repeat (apply elem_of_cons in Hn as [->|Hn];
              [apply (bool_decide_unpack _); vm_compute; exact I|]).
      by apply not_elem_of_nil in Hn.
    + exists out. split; [exact Hok|]. rewrite Hdata. vm_compute. reflexivity.
Defined.

(** ** Keyword scan *)

Section Keywords.

Lemma startswith_spec p s :
  startswith p s = true <-> exists post, s = p ++ post.
Proof.
  revert s. induction p as [|a p IH]; intros s.
  - simpl. split; [by exists s|done].
  - destruct s as [|b s].
    + simpl. split; [done|by intros [? ?]].
    + simpl. rewrite andb_true_iff, N.eqb_eq, IH. split.
      * intros [-> [post ->]]. by exists post.
      * intros [post [= -> ->]]. split; [done|by exists post].
Qed.

Lemma str_contains_spec kw text :
  str_contains kw text = true <-> exists pre post, text = pre ++ kw ++ post.
Proof.
  induction text as [|c t IH].
  - simpl. rewrite orb_false_r, startswith_spec. split.
    + intros [post E]. by exists [], post.
    + intros (pre & post & E). symmetry in E.
      apply app_eq_nil in E as [-> E]. by exists post.
  - simpl. rewrite orb_true_iff, startswith_spec, IH. split.
    + intros [[post E]|(pre & post & E)].
      * by exists [], post.
      * exists (c :: pre), post. by rewrite E.
    + intros ([|d pre] & post & E).
      * left. by exists post.
      * right. injection E as -> E. by exists pre, post.
Qed.

Lemma first_hit_bit kws text : first_hit kws text = 1%Z \/ first_hit kws text = 0%Z.
Proof.
  induction kws as [|kw rest IH]; [by right|].
  simpl. destruct (str_contains kw text); [by left|exact IH].
Qed.

Lemma first_hit_spec kws text :
  first_hit kws text = 1%Z <->
  exists kw, kw ∈ kws /\ exists pre post, text = pre ++ kw ++ post.
Proof.
  induction kws as [|kw rest IH].
  - simpl. split; [done|]. intros (kw & Hin & _). by apply not_elem_of_nil in Hin.
  - simpl. destruct (str_contains kw text) eqn:Hc.
    + split; [|done]. intros _. exists kw. split; [left|by apply str_contains_spec].
    + rewrite IH. split.
      * intros (k & Hin & Hs). exists k. split; [by right|done].
      * intros (k & Hin & Hs). apply elem_of_cons in Hin as [->|Hin].
        -- apply str_contains_spec in Hs. congruence.
        -- by exists k.
Qed.

(** A word that does not end with a space and sits inside [s ++ " "] sits
    inside [s]. *)
Lemma substring_before_space kw s pre post :
  (forall c, last kw = Some c -> c <> Text.SP) -> kw <> [] ->
  s ++ [Text.SP] = pre ++ kw ++ post ->
  exists pre' post', s = pre' ++ kw ++ post'.
Proof.
  intros Hl Hne E.
  destruct (decide (post = [])) as [->|Hpost].
  - rewrite app_nil_r in E.
    assert (last (pre ++ kw) = Some Text.SP) as Hlast by (by rewrite <- E, last_snoc).
    rewrite last_app in Hlast.
    destruct (last kw) as [c|] eqn:Hk.
    + injection Hlast as ->. by destruct (Hl Text.SP).
    + by apply last_None in Hk.
  - assert (exists post' x, post = post' ++ [x]) as (post' & x & ->).
    { destruct (last post) as [x|] eqn:Hx.
      - apply last_Some in Hx as [post' ->]. by exists post', x.
      - by apply last_None in Hx. }
    rewrite !app_assoc in E. apply app_inj_tail in E as [E _].
    exists pre, post'. by rewrite E, app_assoc.
Qed.

Context `{PyLower}.

Lemma str_lower_nil : str_lower [] = [].
Proof. by rewrite str_lower_ascii by constructor. Qed.

Lemma keywords_literal : keywords = security_keywords.
Proof.
  unfold keywords.
  assert (Forall (fun kw => is_ascii kw /\ ascii_lower <$> kw = kw) security_keywords)
    as Hall.
  { apply (bool_decide_unpack _). vm_compute. exact I. }
  induction Hall as [|kw kws [Ha Hl] _ IH]; [done|].
  rewrite fmap_cons, IH. f_equal. by rewrite str_lower_ascii.
Qed.

Lemma keywords_shape :
  Forall (fun kw => kw <> [] /\ forall c, last kw = Some c -> c <> Text.SP) security_keywords.
Proof.
  apply Forall_forall. intros kw Hin.
  assert (Forall (fun kw => kw <> [] /\ last kw <> Some Text.SP) security_keywords) as Hall.
  { apply (bool_decide_unpack _). vm_compute. exact I. }
  rewrite Forall_forall in Hall. destruct (Hall kw Hin) as [Hne Hl].
  split; [done|]. intros c Hc ->. done.
Qed.

End Keywords.

(** C2.  Lower-casing leaves the vocabulary as it is written, and the scan
    returns 1 exactly when some word of the vocabulary is a contiguous
    substring of the scanned text, 0 otherwise.  So the flag of a row is 1
    exactly when a word of the vocabulary sits in its lower-cased text; for
    a row with title [T] and no body that is the lower-cased [T].  The
    flag of an empty text is 0, a phrase of two words must appear
    contiguously. *)
Theorem security_flag_iff_keyword `{PyLower} (cols : list string) (r : list cell) (T : pystr) :
  keywords = security_keywords
  /\ (forall text, first_hit keywords text = 1%Z <->
        exists kw, kw ∈ security_keywords /\ exists pre post, text = pre ++ kw ++ post)
  /\ (forall text, first_hit keywords text = 0%Z <->
        ~ exists kw, kw ∈ security_keywords /\ exists pre post, text = pre ++ kw ++ post)
  /\ (has_security_flag cols r = 1%Z <->
        exists kw, kw ∈ security_keywords
          /\ exists pre post, flag_text cols r = pre ++ kw ++ post)
  /\ (has_security_flag ["TITLE"; "BODYSTRING"] [Str T; Missing] = 1%Z <->
        exists kw, kw ∈ security_keywords
          /\ exists pre post, str_lower T = pre ++ kw ++ post)
  /\ has_security_flag ["TITLE"; "BODYSTRING"] [Str []; Missing] = 0%Z
  /\ has_security_flag ["TITLE"; "BODYSTRING"] [Missing; Missing] = 0%Z
  /\ first_hit keywords [] = 0%Z
  /\ first_hit keywords (lit "cross the site") = 0%Z
  /\ first_hit keywords (lit "a cross site b") = 1%Z.
Proof.
  assert (forall text, first_hit keywords text = 1%Z <->
            exists kw, kw ∈ security_keywords /\ exists pre post, text = pre ++ kw ++ post)
    as Hscan.
  { intros text. rewrite first_hit_spec. by rewrite keywords_literal. }
  split_and!.
  - apply keywords_literal.
  - exact Hscan.
  - intros text. rewrite <- Hscan.
    destruct (first_hit_bit keywords text) as [E|E]; rewrite E; split; done.
  - apply Hscan.
  - unfold has_security_flag. rewrite Hscan.
    change (flag_text ["TITLE"; "BODYSTRING"] [Str T; Missing])
      with (str_lower T ++ [Text.SP]).
    split; intros (kw & Hin & pre & post & E); exists kw; (split; [done|]).
    + pose proof keywords_shape as Hsh. rewrite Forall_forall in Hsh.
      destruct (Hsh kw Hin) as [Hne Hl].
      by apply (substring_before_space kw (str_lower T) pre post).
    + exists pre, (post ++ [Text.SP]). by rewrite E, <- !app_assoc.
  - unfold has_security_flag.
    change (flag_text ["TITLE"; "BODYSTRING"] [Str []; Missing])
      with (str_lower [] ++ [Text.SP]).
    by rewrite str_lower_nil, keywords_literal.
  - unfold has_security_flag. by rewrite keywords_literal.
  - by rewrite keywords_literal.
  - by rewrite keywords_literal.
  - by rewrite keywords_literal.
Qed.

Lemma security_flag_iff_keyword_witness :
  has_security_flag ["TITLE"; "BODYSTRING"] [Str (lit "Stack Overflow"); Missing] = 1%Z.
Proof.
  apply (proj2 (proj1 (proj2 (proj2 (proj2 (proj2
    (security_flag_iff_keyword [] [] (lit "Stack Overflow")))))))).
  exists (lit "overflow"). split.
  - apply (bool_decide_unpack _). vm_compute. exact I.
  - exists (lit "stack "), []. reflexivity.
Defined.

(** ** The join *)

Section Join.

Lemma append_empty_r (c : string) : c +:+ "" = c.
Proof.
  induction c as [|a c IH]; [done|].
  change (String a (c +:+ "") = String a c). by rewrite IH.
Qed.

Lemma merge_left_inv df1 df3 lo ro rs merged :
  merge_left df1 df3 lo ro "" rs = Ok merged ->
  exists i j,
    col_index lo (columns df1) = Some i
    /\ col_index ro (columns df3) = Some j
    /\ columns merged
       = columns df1
         ++ ((fun c => if decide (c ∈ columns df1) then c +:+ rs else c) <$> columns df3)
    /\ data merged = data df1 ≫= join_row i j (length (columns df3)) (data df3).
Proof.
  unfold merge_left.
  destruct (col_index ro (columns df3)) as [j|]; [|done].
  destruct (col_index lo (columns df1)) as [i|]; [|done].
  destruct (incompatible_keys _ _); [done|].
  intros [= <-]. exists i, j. split_and!; try done.
  cbn [columns]. f_equal.
  rewrite <- (list_fmap_id (columns df1)) at 2.
  apply list_fmap_ext. intros _ c _. simpl.
  case_decide; [apply append_empty_r|done].
Qed.




Lemma join_row_parts i j w rows l :
  join_row i j w rows l = (fun rp => l ++ rp) <$> right_parts i j w rows l.
Proof. unfold join_row, right_parts. by destruct (matches i j rows l). Qed.

Lemma right_parts_length i j w rows l rp :
  Forall (fun r => length r = w) rows ->
  rp ∈ right_parts i j w rows l -> length rp = w.
Proof.
  intros Hwf. unfold right_parts.
  destruct (matches i j rows l) as [|m ms] eqn:Hm.
  - intros Hin. apply list_elem_of_singleton in Hin as ->. apply length_replicate.
  - rewrite <- Hm. unfold matches. intros Hin.
    apply list_elem_of_filter in Hin as [_ Hin].
    rewrite Forall_forall in Hwf. by apply Hwf.
Qed.

Lemma right_parts_count i j w rows l :
  length (right_parts i j w rows l) = (1 `max` length (matches i j rows l))%nat.
Proof. unfold right_parts. destruct (matches i j rows l); simpl; lia. Qed.

Lemma fmap_bind_rows {A B C} (g : B -> C) (f : A -> list B) (l : list A) :
  g <$> (l ≫= f) = l ≫= (fun x => g <$> f x).
Proof.
  induction l as [|x l IH]; [done|].
  by rewrite !bind_cons, fmap_app, IH.
Qed.

Lemma bind_ext_in {A B} (f g : A -> list B) (l : list A) :
  (forall x, x ∈ l -> f x = g x) -> l ≫= f = l ≫= g.
Proof.
  induction l as [|x l IH]; [done|]. intros Hfg.
  rewrite !bind_cons, Hfg by left. f_equal. apply IH. intros y Hy. apply Hfg. by right.
Qed.

Lemma length_bind_rows {A B} (f : A -> list B) (l : list A) :
  length (l ≫= f) = sum_list ((fun x => length (f x)) <$> l).
Proof.
  induction l as [|x l IH]; [done|].
  by rewrite bind_cons, length_app, IH.
Qed.



(** Keys of one kind meet exactly when they are the same cell. *)
Lemma key_eq_one_kind lk rk a b :
  keys_of_one_kind lk rk -> a ∈ lk -> b ∈ rk ->
  key_eq b a = true <-> b = a.
Proof.
  intros [[Hl Hr]|[Hl Hr]] Ha Hb; rewrite Forall_forall in Hl, Hr;
    destruct (Hl a Ha) as [x ->]; destruct (Hr b Hb) as [y ->];
    cbn [key_eq]; rewrite bool_decide_eq_true;
    (split; [by intros ->|by intros [= ->]]).
Qed.


End Join.

(** ** Column assignment and the written frame *)

Section Columns.

Lemma col_index_cons name c cols :
  col_index name (c :: cols)
  = if decide (c = name) then Some 0%nat else S <$> col_index name cols.
Proof.
  unfold col_index. cbn [list_find]. case_decide; [done|].
  by destruct (list_find _ cols) as [[k x]|].
Qed.

Lemma col_index_snoc name cols :
  name ∉ cols -> col_index name (cols ++ [name]) = Some (length cols).
Proof.
  induction cols as [|c cols IH]; intros Hn.
  - simpl. rewrite col_index_cons. by case_decide.
  - apply not_elem_of_cons in Hn as [Hne Hn].
    simpl. rewrite col_index_cons. case_decide; [congruence|].
    by rewrite IH.
Qed.

Lemma col_index_snoc_other name other cols :
  other <> name -> other ∉ cols -> col_index other (cols ++ [name]) = None.
Proof.
  intros Hne Hn. apply col_index_None. intros Hin.
  apply elem_of_app in Hin as [Hin|Hin]; [done|].
  by apply list_elem_of_singleton in Hin.
Qed.

Lemma zip_with_project_l {A B C D} (f : A -> B -> C) (g : C -> D) (h : A -> D)
    (rows : list A) (vals : list B) :
  length vals = length rows ->
  (forall r v, r ∈ rows -> g (f r v) = h r) ->
  g <$> zip_with f rows vals = h <$> rows.
Proof.
  revert vals. induction rows as [|r rows IH]; intros [|v vals] Hlen Hg; try done.
  simpl. rewrite Hg by left. f_equal. apply IH; [by injection Hlen|].
  intros r' v' Hr'. apply Hg. by right.
Qed.

Lemma zip_with_project_r {A B C} (f : A -> B -> C) (g : C -> B)
    (rows : list A) (vals : list B) :
  length vals = length rows ->
  (forall r v, r ∈ rows -> g (f r v) = v) ->
  g <$> zip_with f rows vals = vals.
Proof.
  revert vals. induction rows as [|r rows IH]; intros [|v vals] Hlen Hg; try done.
  simpl. rewrite Hg by left. f_equal. apply IH; [by injection Hlen|].
  intros r' v' Hr'. apply Hg. by right.
Qed.

Lemma cell_at_app_l i (l rp : list cell) :
  (i < length l)%nat -> cell_at i (l ++ rp) = cell_at i l.
Proof. intros Hi. unfold cell_at. by rewrite lookup_app_l. Qed.

Lemma getitem_setitem_same name vals df :
  wf_frame df -> length vals = length (data df) ->
  getitem name (setitem name vals df) = Ok vals.
Proof.
  intros Hwf Hlen. unfold setitem, wf_frame in *. rewrite Forall_forall in Hwf.
  destruct (col_index name (columns df)) as [i|] eqn:Hi.
  - unfold getitem. cbn [columns data]. rewrite Hi. f_equal.
    apply zip_with_project_r; [done|]. intros r v Hr.
    unfold cell_at. rewrite list_lookup_insert_eq; [done|].
    rewrite (Hwf r Hr). by eapply col_index_lt.
  - unfold getitem. cbn [columns data].
    apply col_index_None in Hi. rewrite col_index_snoc by done. f_equal.
    apply zip_with_project_r; [done|]. intros r v Hr.
    unfold cell_at. rewrite <- (Hwf r Hr). by rewrite list_lookup_middle.
Qed.

Lemma getitem_setitem_other name other vals df :
  other <> name -> wf_frame df -> length vals = length (data df) ->
  getitem other (setitem name vals df) = getitem other df.
Proof.
  intros Hne Hwf Hlen. unfold setitem, wf_frame in *. rewrite Forall_forall in Hwf.
  destruct (col_index name (columns df)) as [i|] eqn:Hi.
  - unfold getitem. cbn [columns data].
    destruct (col_index other (columns df)) as [k|] eqn:Hk; [|done]. f_equal.
    apply zip_with_project_l; [done|]. intros r v Hr.
    unfold cell_at. rewrite list_lookup_insert_ne; [done|].
    intros ->. apply col_index_Some in Hi, Hk. congruence.
  - unfold getitem. cbn [columns data].
    destruct (col_index other (columns df)) as [k|] eqn:Hk.
    + rewrite (col_index_app_l _ _ _ _ Hk). f_equal.
      apply zip_with_project_l; [done|]. intros r v Hr.
      apply cell_at_app_l. rewrite (Hwf r Hr). by eapply col_index_lt.
    + apply col_index_None in Hk. by rewrite col_index_snoc_other.
Qed.

Lemma getitem_inv name df col :
  getitem name df = Ok col ->
  exists i, col_index name (columns df) = Some i /\ col = cell_at i <$> data df.
Proof.
  unfold getitem. destruct (col_index name (columns df)) as [i|]; [|done].
  intros [= <-]. by exists i.
Qed.

Lemma frame_of_five n1 n2 n3 n4 n5 (f1 f2 f3 f4 f5 : list cell -> cell) rows :
  frame_of_series [(n1, f1 <$> rows); (n2, f2 <$> rows); (n3, f3 <$> rows);
                   (n4, f4 <$> rows); (n5, f5 <$> rows)]
  = {| columns := [n1; n2; n3; n4; n5];
       data := (fun r => [f1 r; f2 r; f3 r; f4 r; f5 r]) <$> rows |}.
Proof.
  unfold frame_of_series. f_equal.
  change (length (default [] (snd <$> head
            [(n1, f1 <$> rows); (n2, f2 <$> rows); (n3, f3 <$> rows);
             (n4, f4 <$> rows); (n5, f5 <$> rows)])))
    with (length (f1 <$> rows)).
  rewrite length_fmap. apply list_eq. intros k.
  rewrite !list_lookup_fmap.
  destruct (rows !! k) as [r|] eqn:Hr.
  - rewrite lookup_seq_lt by (by eapply lookup_lt_Some).
    cbn [fmap option_fmap option_map list_fmap snd]. unfold cell_at.
    change (list_fmap (list cell) cell) with (@fmap list _ (list cell) cell).
    change (0 + k)%nat with k. by rewrite !list_lookup_fmap, Hr.
  - rewrite lookup_seq_ge; [done|]. by apply lookup_ge_None.
Qed.

End Columns.

(** ** Task 5 *)

Section Task5Facts.
Context `{PyLower}.

Lemma merged_rows_wf df1 df3 i j :
  wf_frame df1 -> wf_frame df3 ->
  Forall (fun r => length r = length (merged_columns df1 df3))
         (data df1 ≫= join_row i j (length (columns df3)) (data df3)).
Proof.
  intros Hwf1 Hwf3. apply Forall_forall. intros row Hrow.
  apply list_elem_of_bind in Hrow as (l & Hrow & Hl).
  rewrite join_row_parts in Hrow.
  apply list_elem_of_fmap in Hrow as (rp & -> & Hrp).
  apply right_parts_length in Hrp; [|exact Hwf3].
  unfold wf_frame in Hwf1. rewrite Forall_forall in Hwf1.
  unfold merged_columns. rewrite !length_app, length_fmap, Hrp.
  by rewrite (Hwf1 l Hl).
Qed.

Lemma produce_task5_inv df1 df3 out :
  wf_frame df1 -> wf_frame df3 -> produce_task5 df1 df3 = Ok out ->
  exists i j ka kt kc,
    col_index "ID" (columns df1) = Some i
    /\ col_index "PRID" (columns df3) = Some j
    /\ col_index "AGENTNAME" (merged_columns df1 df3) = Some ka
    /\ col_index "PRTYPE" (merged_columns df1 df3) = Some kt
    /\ col_index "CONFIDENCE" (merged_columns df1 df3) = Some kc
    /\ out =
       {| columns := ["ID"; "AGENT"; "TYPE"; "CONFIDENCE"; "SECURITY"];
          data :=
            data df1 ≫= (fun l =>
              (fun rp => [cell_at i l; cell_at ka (l ++ rp); cell_at kt (l ++ rp);
                          cell_at kc (l ++ rp);
                          Int (has_security_flag (merged_columns df1 df3) (l ++ rp))])
              <$> right_parts i j (length (columns df3)) (data df3) l) |}.
Proof.
  intros Hwf1 Hwf3 Hp. unfold produce_task5 in Hp.
  apply bind_Ok in Hp as (merged & Hm & Hp).
  apply merge_left_inv in Hm as (i & j & Hi & Hj & Hcols & Hdata).
  fold (merged_columns df1 df3) in Hcols.
  assert (wf_frame merged) as Hwf.
  { unfold wf_frame. rewrite Hcols, Hdata. by apply merged_rows_wf. }
  cbv zeta in Hp.
  rewrite !getitem_setitem_other in Hp by (done || by rewrite length_fmap).
  rewrite getitem_setitem_same in Hp by (done || by rewrite length_fmap).
  apply bind_Ok in Hp as (c_id & Hid & Hp).
  apply bind_Ok in Hp as (c_agent & Hagent & Hp).
  apply bind_Ok in Hp as (c_type & Htype & Hp).
  apply bind_Ok in Hp as (c_conf & Hconf & Hp).
  cbn [bind] in Hp. injection Hp as <-.
  apply getitem_inv in Hid as (i' & Hi' & ->).
  apply getitem_inv in Hagent as (ka & Hka & ->).
  apply getitem_inv in Htype as (kt & Hkt & ->).
  apply getitem_inv in Hconf as (kc & Hkc & ->).
  rewrite Hcols in *.
  assert (i' = i) as ->.
  { unfold merged_columns in Hi'. rewrite (col_index_app_l _ _ _ _ Hi) in Hi'. congruence. }
  exists i, j, ka, kt, kc. split_and!; try done.
  rewrite frame_of_five. f_equal.
  rewrite Hdata, fmap_bind_rows. apply bind_ext_in. intros l Hl.
  rewrite join_row_parts, <- list_fmap_compose.
  apply list_fmap_ext. intros _ rp _. cbn [compose]. f_equal.
  apply cell_at_app_l.
  unfold wf_frame in Hwf1. rewrite Forall_forall in Hwf1.
  rewrite (Hwf1 l Hl). by eapply col_index_lt.
Qed.

(** With TITLE and BODYSTRING in the left frame, the text that is scanned
    is that of the left row. *)
Lemma row_get_left df1 df3 l rp name :
  length l = length (columns df1) -> name ∈ columns df1 ->
  row_get (merged_columns df1 df3) (l ++ rp) name = row_get (columns df1) l name.
Proof.
  intros Hlen Hin. destruct (col_index_elem _ _ Hin) as [k Hk].
  unfold row_get, merged_columns.
  rewrite (col_index_app_l _ _ _ _ Hk), Hk. cbn.
  apply lookup_app_l. rewrite Hlen. by eapply col_index_lt.
Qed.

Lemma has_security_flag_left df1 df3 l rp :
  length l = length (columns df1) ->
  "TITLE" ∈ columns df1 -> "BODYSTRING" ∈ columns df1 ->
  has_security_flag (merged_columns df1 df3) (l ++ rp) = has_security_flag (columns df1) l.
Proof.
  intros Hlen Ht Hb. unfold has_security_flag, flag_text.
  by rewrite !row_get_left.
Qed.

End Task5Facts.

Section Task5Claims.
Context `{PyLower}.

Lemma fmap_const_replicate {A B} (b : B) (l : list A) :
  (fun _ => b) <$> l = replicate (length l) b.
Proof. induction l as [|x l IH]; [done|]. simpl. by rewrite <- IH. Qed.

Lemma security_column_inv df1 df3 out :
  wf_frame df1 -> wf_frame df3 -> produce_task5 df1 df3 = Ok out ->
  exists i j,
    col_index "ID" (columns df1) = Some i
    /\ col_index "PRID" (columns df3) = Some j
    /\ columns out = ["ID"; "AGENT"; "TYPE"; "CONFIDENCE"; "SECURITY"]
    /\ length (data out)
       = sum_list ((fun l => 1 `max` length (matches i j (data df3) l))%nat <$> data df1)
    /\ cell_at 0 <$> data out
       = data df1 ≫= (fun l =>
           replicate (1 `max` length (matches i j (data df3) l)) (cell_at i l))
    /\ security_column out
       = data df1 ≫= (fun l =>
           (fun rp => Int (has_security_flag (merged_columns df1 df3) (l ++ rp)))
           <$> right_parts i j (length (columns df3)) (data df3) l).
Proof.
  intros Hwf1 Hwf3 Hp.
  destruct (produce_task5_inv df1 df3 out Hwf1 Hwf3 Hp)
    as (i & j & ka & kt & kc & Hi & Hj & _ & _ & _ & ->).
  exists i, j. unfold security_column. cbn [columns data]. split_and!; try done.
  - rewrite length_bind_rows. f_equal. apply list_fmap_ext. intros _ l _.
    by rewrite length_fmap, right_parts_count.
  - rewrite fmap_bind_rows. apply bind_ext_in. intros l _.
    rewrite <- list_fmap_compose,
      <- (right_parts_count i j (length (columns df3))).
    apply (fmap_const_replicate (cell_at i l)).
  - rewrite fmap_bind_rows. apply bind_ext_in. intros l _.
    by rewrite <- list_fmap_compose.
Qed.



End Task5Claims.




(** C3.  A null title or body, or a row without that field, contributes
    the empty string, any other cell its lower-cased [str]; the flag is the
    scan of title, one space and body.  Every flag of the written table is
    that scan on a row of the merged frame, and the title and body of a
    merged row are those of the pull request whenever the left table has
    the two columns.  Title ["Fix XSS vulnerability"] with a null body
    gives the text ["fix xss vulnerability "] and the flag 1. *)
Theorem security_flag_text `{PyLower} (df1 df3 out : DataFrame)
    (Hwf1 : wf_frame df1) (Hwf3 : wf_frame df3)
    (Hok : produce_task5 df1 df3 = Ok out) :
  (lowered None = [] /\ lowered (Some Missing) = []
   /\ forall c, isna c = false -> lowered (Some c) = str_lower (py_str c))
  /\ (forall s, py_str (Str s) = s)
  /\ (forall cols r,
        has_security_flag cols r
        = first_hit keywords
            (lowered (row_get cols r "TITLE") ++ [32]
             ++ lowered (row_get cols r "BODYSTRING")))
  /\ (exists i j,
        col_index "ID" (columns df1) = Some i
        /\ col_index "PRID" (columns df3) = Some j
        /\ security_column out
           = data df1 ≫= (fun l =>
               (fun rp => Int (has_security_flag (merged_columns df1 df3) (l ++ rp)))
               <$> right_parts i j (length (columns df3)) (data df3) l))
  /\ (forall name l rp, name ∈ columns df1 -> l ∈ data df1 ->
        row_get (merged_columns df1 df3) (l ++ rp) name = row_get (columns df1) l name)
  /\ flag_text ["TITLE"; "BODYSTRING"] [Str (lit "Fix XSS vulnerability"); Missing]
     = lit "fix xss vulnerability "
  /\ has_security_flag ["TITLE"; "BODYSTRING"] [Str (lit "Fix XSS vulnerability"); Missing]
     = 1%Z.
Proof.
  assert (flag_text ["TITLE"; "BODYSTRING"] [Str (lit "Fix XSS vulnerability"); Missing]
          = lit "fix xss vulnerability ") as Htext.
  { change (flag_text ["TITLE"; "BODYSTRING"] [Str (lit "Fix XSS vulnerability"); Missing])
      with (str_lower (lit "Fix XSS vulnerability") ++ [Text.SP]).
    rewrite str_lower_ascii; [reflexivity|].
    apply (bool_decide_unpack _). vm_compute. exact I. }
  split_and!; try done.
  - intros c Hc. simpl. by rewrite Hc.
  - destruct (security_column_inv df1 df3 out Hwf1 Hwf3 Hok)
      as (i & j & Hi & Hj & _ & _ & _ & Hsec).
    by exists i, j.
  - intros name l rp Hname Hl. apply row_get_left; [|done].
    unfold wf_frame in Hwf1. rewrite Forall_forall in Hwf1. by apply Hwf1.
  - unfold has_security_flag. by rewrite Htext, keywords_literal.
Qed.

Lemma security_flag_text_witness :
  exists out, produce_task5 pr_sample cls_none = Ok out
    /\ security_column out = [Int 1; Int 0].
Proof.
  eexists. split; [vm_compute; reflexivity|].
  match goal with |- security_column ?o = _ =>
    destruct (security_flag_text pr_sample cls_none o
                ltac:(repeat constructor) ltac:(repeat constructor) eq_refl)
      as (_ & _ & _ & (i & j & _ & _ & Hsec) & _)
  end.
  reflexivity.
Defined.

(** C9.  The written table has the five columns ID, AGENT, TYPE,
    CONFIDENCE, SECURITY, every row has five cells, and the SECURITY cell
    of every row is the integer 1 or the integer 0. *)
Theorem security_flag_is_bit `{PyLower} (df1 df3 out : DataFrame)
    (Hwf1 : wf_frame df1) (Hwf3 : wf_frame df3)
    (Hok : produce_task5 df1 df3 = Ok out) :
  columns out = ["ID"; "AGENT"; "TYPE"; "CONFIDENCE"; "SECURITY"]
  /\ Forall (fun row => length row = 5%nat
                        /\ (row !! 4%nat = Some (Int 1) \/ row !! 4%nat = Some (Int 0)))
            (data out)
  /\ getitem "SECURITY" out = Ok (security_column out)
  /\ Forall (fun c => c = Int 1 \/ c = Int 0) (security_column out)
  /\ (forall cols r, has_security_flag cols r = 1%Z \/ has_security_flag cols r = 0%Z).
Proof.
  assert (forall cols r, has_security_flag cols r = 1%Z \/ has_security_flag cols r = 0%Z)
    as Hbit by (intros; apply first_hit_bit).
  destruct (produce_task5_inv df1 df3 out Hwf1 Hwf3 Hok)
    as (i & j & ka & kt & kc & _ & _ & _ & _ & _ & ->).
  assert (Forall (fun row => length row = 5%nat
                   /\ (row !! 4%nat = Some (Int 1) \/ row !! 4%nat = Some (Int 0)))
            (data df1 ≫= (fun l =>
              (fun rp => [cell_at i l; cell_at ka (l ++ rp); cell_at kt (l ++ rp);
                          cell_at kc (l ++ rp);
                          Int (has_security_flag (merged_columns df1 df3) (l ++ rp))])
              <$> right_parts i j (length (columns df3)) (data df3) l))) as Hrows.
  { apply Forall_forall. intros row Hrow.
    apply list_elem_of_bind in Hrow as (l & Hrow & _).
    apply list_elem_of_fmap in Hrow as (rp & -> & _).
    split; [done|].
    destruct (Hbit (merged_columns df1 df3) (l ++ rp)) as [E|E]; rewrite E;
      [by left|by right]. }
  split_and!; try done.
  unfold security_column. cbn [data]. apply Forall_fmap.
  eapply Forall_impl; [exact Hrows|]. intros row [_ Hrow].
  unfold compose, cell_at.
  destruct Hrow as [E|E]; rewrite E; [by left|by right].
Qed.

Lemma security_flag_is_bit_witness :
  exists out, produce_task5 pr_sample cls_once = Ok out
    /\ Forall (fun c => c = Int 1 \/ c = Int 0) (security_column out).
Proof.
  eexists. split; [vm_compute; reflexivity|].
  match goal with |- Forall _ (security_column ?o) =>
    destruct (security_flag_is_bit pr_sample cls_once o
                ltac:(repeat constructor) ltac:(repeat constructor) eq_refl)
      as (_ & _ & _ & Hbits & _)
  end.
  exact Hbits.
Defined.




(** Integer ids of pull requests find the float ids of a classification
    table read with a missing id: pull request 5 has two classification
    rows, pull request 6 none, and three rows are written. *)
Example ids_meet_by_value :
  (let* out := produce_task5 pr_sample cls_float in
   Ok (cell_at 0 <$> data out, cell_at 2 <$> data out))
  = Ok ([Int 5; Int 5; Int 6], [Str (lit "fix"); Str (lit "feat"); Missing])
  /\ key_eq (Int 9007199254740993) (Float (lit "9007199254740992.0")) = true
  /\ key_eq (Int 9223372036854775807) (Float (lit "9.223372036854776e+18")) = true
  /\ key_eq (Float (lit "0.0")) (Float (lit "-0.0")) = true
  /\ key_eq (Int 5) (Float (lit "5.5")) = false
  /\ key_eq (Int 5) (Str (lit "5")) = false.
Proof. split_and!; vm_compute; reflexivity. Qed.

(** What the merge refuses: with neither key column present the KeyError
    names the right key; integer ids against string ids are a ValueError,
    unless one of the two tables has no row. *)
Example merge_refusals :
  produce_task5 {| columns := ["TITLE"]; data := [] |}
                {| columns := ["PRTYPE"]; data := [] |}
  = Err (KeyError ["PRID"])
  /\ produce_task5 {| columns := ["TITLE"]; data := [] |} cls_once
     = Err (KeyError ["ID"])
  /\ produce_task5 pr_sample
       {| columns := ["PRID"; "PRTYPE"; "CONFIDENCE"];
          data := [[Str (lit "5"); Str (lit "fix"); Float (lit "0.9")]] |}
     = Err ValueError
  /\ is_ok (produce_task5 pr_sample cls_none).
Proof. split_and!; vm_compute; done. Qed.

(** Without a TITLE column in the left frame, [row.get("TITLE")] finds the
    one of the right frame: the hypothesis on the left columns in
    [security_flag_from_pr_row] cannot be dropped. *)
Example title_of_right_frame :
  (let* out := produce_task5 pr_untitled (cls_titled "an exploit") in
   Ok (security_column out)) = Ok [Int 1]
  /\ (let* out := produce_task5 pr_untitled (cls_titled "a typo") in
      Ok (security_column out)) = Ok [Int 0].
Proof. split; reflexivity. Qed.

(** * Further properties *)

(** ** The text cleaner *)

Section CleanerShape.
Import Text TextFacts.

Lemma sub_crlftab_length s : (length (sub_crlftab s) <= length s)%nat.
Proof.
  induction s as [|c [|d t] IH]; [done| |].
  - simpl. destruct (is_crlftab c); simpl; lia.
  - destruct (is_crlftab c) eqn:Hc, (is_crlftab d) eqn:Hd.
    + rewrite sub_crlftab_cons_run by done. simpl length in *. lia.
    + rewrite sub_crlftab_cons_end by done. simpl length in *. lia.
    + rewrite (sub_crlftab_cons_other c) by done. simpl length in *. lia.
    + rewrite (sub_crlftab_cons_other c) by done. simpl length in *. lia.
Qed.

Lemma sub_spaces_length s : (length (sub_spaces s) <= length s)%nat.
Proof.
  induction s as [|c [|d t] IH]; [done..|].
  rewrite sub_spaces_cons_cons.
  destruct ((c =? SP) && (d =? SP)); simpl length in *; lia.
Qed.

Lemma strip_length s : (length (strip s) <= length s)%nat.
Proof.
  destruct (strip_spec s) as (w1 & w2 & Hs & _).
  rewrite Hs at 2. rewrite !length_app. lia.
Qed.

Lemma clean_str_length s : (length (clean_str s) <= length s)%nat.
Proof.
  unfold clean_str.
  pose proof (strip_length (sub_spaces (remove_control (sub_crlftab s)))).
  pose proof (sub_spaces_length (remove_control (sub_crlftab s))).
  pose proof (length_filter (fun c => is_control c = false) (sub_crlftab s)).
  pose proof (sub_crlftab_length s).
  unfold remove_control in *. lia.
Qed.

Lemma sub_crlftab_Forall (P : N -> Prop) s :
  P SP -> Forall P s -> Forall P (sub_crlftab s).
Proof.
  intros HP. induction 1 as [|c t Hc Ht IH]; [constructor|].
  simpl. destruct (is_crlftab c).
  - destruct t as [|d t']; [by repeat constructor|].
    destruct (is_crlftab d); [done|by constructor].
  - by constructor.
Qed.

Lemma strip_space s : Forall (fun c => py_isspace c = true) s -> strip s = [].
Proof.
  intros Hs. unfold strip. apply rstrip_space.
  destruct (lstrip_spec s) as (w & Hw & _). rewrite Hw in Hs.
  by apply Forall_app in Hs as [_ ?].
Qed.

Lemma clean_str_blank s :
  clean_str s = [] <->
  Forall (fun c => py_isspace c = true \/ is_control c = true) s.
Proof.
  split.
  - intros Hs. pose proof (clean_str_kept s) as Hk. rewrite Hs in Hk.
    apply Forall_forall. intros c Hc.
    destruct (py_isspace c) eqn:Hsp; [by left|].
    destruct (is_control c) eqn:Hct; [by right|].
    assert (c ∈ filter kept s) as Hin by (by apply list_elem_of_filter).
    rewrite <- Hk in Hin. by apply not_elem_of_nil in Hin.
  - intros Hs. unfold clean_str. apply strip_space, sub_spaces_Forall.
    apply (sub_crlftab_Forall _ s) in Hs; [|by left].
    unfold remove_control. apply Forall_forall. intros c Hc.
    apply list_elem_of_filter in Hc as [Hct Hc].
    rewrite Forall_forall in Hs. destruct (Hs c Hc) as [?|?]; [done|congruence].
Qed.

Lemma no_sp_pair_of_spec s :
  (forall pre post, s <> pre ++ [SP; SP] ++ post) -> no_sp_pair s.
Proof.
  induction s as [|c [|d t] IH]; [done..|]. intros Hs. split.
  - intros [-> ->]. by apply (Hs [] t).
  - apply IH. intros pre post E. apply (Hs (c :: pre) post). by rewrite E.
Qed.

(** What follows the first of two equal [sub_spaces] images decides the
    image of the whole. *)
Lemma sub_spaces_cons_ext c x y :
  sub_spaces x = sub_spaces y -> sub_spaces (c :: x) = sub_spaces (c :: y).
Proof.
  intros E.
  assert (head x = head y) as Hh
    by (by rewrite <- (sub_spaces_head x), <- (sub_spaces_head y), E).
  destruct x as [|d x'], y as [|e y']; try done.
  injection Hh as ->. rewrite !sub_spaces_cons_cons. by rewrite E.
Qed.

Lemma crlftab_as_space s :
  sub_spaces (remove_control (sub_crlftab s))
  = sub_spaces (remove_control ((fun c => if is_crlftab c then SP else c) <$> s)).
Proof.
  unfold remove_control.
  induction s as [|c t IH]; [done|].
  rewrite fmap_cons. destruct (is_crlftab c) eqn:Hc.
  - rewrite (filter_cons_True _ SP) by done.
    destruct t as [|d t'].
    + by rewrite sub_crlftab_single.
    + destruct (is_crlftab d) eqn:Hd.
      * rewrite sub_crlftab_cons_run by done. rewrite IH.
        rewrite fmap_cons, Hd. rewrite (filter_cons_True _ SP) by done.
        by rewrite sub_spaces_cons_cons.
      * rewrite sub_crlftab_cons_end by done.
        rewrite (filter_cons_True _ SP) by done.
        by apply sub_spaces_cons_ext.
  - rewrite sub_crlftab_cons_other by done.
    destruct (is_control c) eqn:Hct.
    + by rewrite !(filter_cons_False _ c) by congruence.
    + rewrite !(filter_cons_True _ c) by done. by apply sub_spaces_cons_ext.
Qed.

Lemma to_space_crlftab_free s :
  Forall (fun c => is_crlftab c = false)
         ((fun c => if is_crlftab c then SP else c) <$> s).
Proof.
  apply Forall_fmap, Forall_forall. intros c _. simpl.
  by destruct (is_crlftab c) eqn:Hc.
Qed.

End CleanerShape.

(** X1.  The strings that [clean_diff] returns unchanged are exactly those
    without a control character (CR, LF and tab included), without two
    adjacent spaces and without whitespace at either end. *)
Theorem clean_diff_fixed_points (s : pystr) :
  clean_diff (Str s) = s <->
  Forall (fun c => Text.is_control c = false) s
  /\ (forall pre post, s <> pre ++ [32; 32] ++ post)
  /\ (forall c, head s = Some c -> Text.py_isspace c = false)
  /\ (forall c, last s = Some c -> Text.py_isspace c = false).
Proof.
  change (clean_diff (Str s)) with (Text.clean_str s). split.
  - intros E. rewrite <- E. split_and!.
    + apply clean_str_control_free.
    + apply TextFacts.no_sp_pair_spec, clean_str_no_pair.
    + apply TextFacts.strip_head.
    + apply TextFacts.strip_last.
  - intros (Hc & Hp & Hh & Hl). apply clean_str_fixed; try done.
    by apply no_sp_pair_of_spec.
Qed.

(** X2.  Cleaning never lengthens a text: the result has at most as many
    characters as [str] of the cell. *)
Theorem clean_diff_never_longer (text : cell) :
  (length (clean_diff text) <= length (py_str text))%nat.
Proof.
  unfold clean_diff. destruct (isna text); [simpl; lia|apply clean_str_length].
Qed.

(** X3.  The result is the empty string exactly when the cell is null or
    its text consists of whitespace and control characters only. *)
Theorem clean_diff_empty_iff (text : cell) :
  clean_diff text = [] <->
  isna text = true
  \/ Forall (fun c => Text.py_isspace c = true \/ Text.is_control c = true) (py_str text).
Proof.
  unfold clean_diff. destruct (isna text) eqn:Hna.
  - split; [by left|done].
  - rewrite clean_str_blank. split; [by right|]. by intros [?|?].
Qed.

(** X4.  A carriage return, line feed or tab counts as a space: replacing
    each of them by a space before cleaning gives the same result. *)
Theorem clean_diff_newline_as_space (s : pystr) :
  clean_diff (Str ((fun c => if Text.is_crlftab c then 32 else c) <$> s))
  = clean_diff (Str s).
Proof.
  change (Text.clean_str ((fun c => if Text.is_crlftab c then Text.SP else c) <$> s)
          = Text.clean_str s).
  unfold Text.clean_str.
  rewrite (TextFacts.sub_crlftab_id _ (to_space_crlftab_free s)).
  by rewrite <- crlftab_as_space.
Qed.

(** ** The keyword scan *)

Section ScanShape.

(** Where a word can sit in two texts joined by one character. *)
Lemma substring_split (a b kw pre post : pystr) (x : N) :
  a ++ x :: b = pre ++ kw ++ post ->
  (exists p q, a = p ++ kw ++ q)
  \/ (exists p q, b = p ++ kw ++ q)
  \/ (exists k1 k2, kw = k1 ++ x :: k2
        /\ (exists p, a = p ++ k1) /\ (exists q, b = k2 ++ q)).
Proof.
  intros E. apply app_eq_app in E as [l [[Ha E]|[Hpre E]]].
  - apply app_eq_app in E as [l2 [[Hkw E]|[Hl Hpost]]].
    + destruct l2 as [|y l2'].
      * rewrite app_nil_r in Hkw. subst l. left. exists pre, []. by rewrite app_nil_r.
      * injection E as -> E. right. right. exists l, l2'. split; [done|].
        split; [by exists pre|by exists post].
    + left. exists pre, l2. by rewrite Ha, Hl, app_assoc.
  - destruct l as [|y l'].
    + simpl in E. rewrite app_nil_r in Hpre. subst pre.
      destruct kw as [|k kw'].
      * left. exists a, []. by rewrite app_nil_r.
      * injection E as -> E. right. right. exists [], kw'. split; [done|].
        split; [exists a; by rewrite app_nil_r|by exists post].
    + injection E as -> E. right. left. by exists l', post.
Qed.

Context `{PyLower}.

Lemma lowered_ascii_case (T T' : pystr) :
  is_ascii T -> is_ascii T' -> ascii_lower <$> T = ascii_lower <$> T' ->
  lowered (Some (Str T)) = lowered (Some (Str T')).
Proof. intros Ha Ha' E. simpl. by rewrite !str_lower_ascii, E. Qed.

End ScanShape.

(** X5.  The flag ignores ASCII letter case: two rows whose titles, and
    whose bodies, are the same cell or ASCII strings equal up to letter
    case get the same flag. *)
Theorem security_flag_ignores_ascii_case `{PyLower} (cols : list string)
    (r r' : list cell)
    (Htitle : row_get cols r "TITLE" = row_get cols r' "TITLE"
              \/ exists T T', row_get cols r "TITLE" = Some (Str T)
                   /\ row_get cols r' "TITLE" = Some (Str T')
                   /\ is_ascii T /\ is_ascii T'
                   /\ ascii_lower <$> T = ascii_lower <$> T')
    (Hbody : row_get cols r "BODYSTRING" = row_get cols r' "BODYSTRING"
             \/ exists B B', row_get cols r "BODYSTRING" = Some (Str B)
                  /\ row_get cols r' "BODYSTRING" = Some (Str B')
                  /\ is_ascii B /\ is_ascii B'
                  /\ ascii_lower <$> B = ascii_lower <$> B') :
  has_security_flag cols r = has_security_flag cols r'.
Proof.
  unfold has_security_flag, flag_text.
  assert (lowered (row_get cols r "TITLE") = lowered (row_get cols r' "TITLE")) as ->.
  { destruct Htitle as [->|(T & T' & -> & -> & Ha & Ha' & E)]; [done|].
    by apply lowered_ascii_case. }
  assert (lowered (row_get cols r "BODYSTRING") = lowered (row_get cols r' "BODYSTRING"))
    as ->; [|done].
  destruct Hbody as [->|(B & B' & -> & -> & Ha & Ha' & E)]; [done|].
  by apply lowered_ascii_case.
Qed.

Lemma security_flag_ignores_ascii_case_witness :
  has_security_flag ["TITLE"; "BODYSTRING"] [Str (lit "SQL Injection"); Missing]
  = has_security_flag ["TITLE"; "BODYSTRING"] [Str (lit "sql injection"); Missing].
Proof.
  apply security_flag_ignores_ascii_case.
  - right. exists (lit "SQL Injection"), (lit "sql injection").
    split_and!; try reflexivity; apply (bool_decide_unpack _); vm_compute; exact I.
  - by left.
Defined.

(** X6.  The flag is 1 exactly when a word of the vocabulary sits in the
    lower-cased title, or in the lower-cased body, or a phrase of the
    vocabulary straddles the space that joins them: the title ends with
    what the phrase has before one of its spaces and the body starts with
    what it has after. *)
Theorem security_flag_where `{PyLower} (cols : list string) (r : list cell) :
  has_security_flag cols r = 1%Z <->
  (exists kw, kw ∈ security_keywords
     /\ exists pre post, lowered (row_get cols r "TITLE") = pre ++ kw ++ post)
  \/ (exists kw, kw ∈ security_keywords
        /\ exists pre post, lowered (row_get cols r "BODYSTRING") = pre ++ kw ++ post)
  \/ (exists w1 w2, w1 ++ [32] ++ w2 ∈ security_keywords
        /\ (exists pre, lowered (row_get cols r "TITLE") = pre ++ w1)
        /\ (exists post, lowered (row_get cols r "BODYSTRING") = w2 ++ post)).
Proof.
  unfold has_security_flag, flag_text. rewrite first_hit_spec, keywords_literal.
  set (title := lowered (row_get cols r "TITLE")).
  set (body := lowered (row_get cols r "BODYSTRING")).
  split.
  - intros (kw & Hin & pre & post & E).
    apply substring_split in E
      as [(p & q & E)|[(p & q & E)|(k1 & k2 & -> & [p Hp] & [q Hq])]].
    + left. exists kw. split; [done|]. by exists p, q.
    + right. left. exists kw. split; [done|]. by exists p, q.
    + right. right. exists k1, k2. split; [done|]. split; [by exists p|by exists q].
  - intros [(kw & Hin & pre & post & E)|[(kw & Hin & pre & post & E)
            |(w1 & w2 & Hin & [pre Hp] & [post Hq])]].
    + exists kw. split; [done|]. exists pre, (post ++ [Text.SP] ++ body).
      rewrite E. by rewrite <- !app_assoc.
    + exists kw. split; [done|]. exists (title ++ [Text.SP] ++ pre), post.
      rewrite E. by rewrite <- !app_assoc.
    + exists (w1 ++ [32] ++ w2). split; [done|]. exists pre, post.
      rewrite Hp, Hq. by rewrite <- !app_assoc.
Qed.

(** ** The projections *)

Section ProjectionShape.

Lemma omap_total {A B} (f : A -> option B) (g : A -> B) (l : list A) :
  Forall (fun x => f x = Some (g x)) l -> omap f l = g <$> l.
Proof.
  induction 1 as [|x l Hx _ IH]; [done|].
  cbn [omap list_omap]. rewrite Hx. cbn. by rewrite <- IH.
Qed.

Lemma select_labels_total (cols : list string) (ps : list nat) :
  Forall (fun p => (p < length cols)%nat) ps ->
  omap (fun p => cols !! p) ps = (fun p => default ""%string (cols !! p)) <$> ps.
Proof.
  intros Hps. apply omap_total. eapply Forall_impl; [exact Hps|].
  intros p Hp. simpl in Hp. by destruct (lookup_lt_is_Some_2 cols p Hp) as [c ->].
Qed.

Lemma getitem_list_shape names df out :
  getitem_list names df = Ok out ->
  length (data out) = length (data df) /\ wf_frame out.
Proof.
  intros Hg. apply getitem_list_inv in Hg as [-> _]. unfold wf_frame.
  cbn [columns data]. split; [by rewrite length_fmap|].
  apply Forall_fmap, Forall_forall. intros r _. cbn [compose].
  rewrite select_labels_total by apply positions_bind_lt.
  by rewrite !length_fmap.
Qed.

Lemma apply_column_rows name f df out :
  apply_column name f df = Ok out -> length (data out) = length (data df).
Proof.
  unfold apply_column. destruct (positions name (columns df)) as [|i [|i' ps]].
  - done.
  - intros [= <-]. cbn [data]. by rewrite length_fmap.
  - destruct (data df) eqn:E; [|done]. intros [= <-]. by rewrite E.
Qed.

Lemma positions_NoDup cols n i :
  NoDup cols -> cols !! i = Some n -> positions n cols = [i].
Proof.
  intros Hnd Hi. apply Permutation_singleton_r. apply NoDup_Permutation.
  - unfold positions. apply NoDup_filter, NoDup_seq.
  - apply NoDup_singleton.
  - intros k. rewrite positions_spec, list_elem_of_singleton. split.
    + intros Hk. by apply (NoDup_lookup cols k i n).
    + by intros ->.
Qed.

Lemma select_labels names cols :
  NoDup cols -> (forall n, n ∈ names -> n ∈ cols) ->
  omap (fun p => cols !! p) (names ≫= (fun n => positions n cols)) = names.
Proof.
  intros Hnd. induction names as [|n names IH]; intros Hin; [done|].
  destruct (list_elem_of_lookup_1 cols n (Hin n (list_elem_of_here _ _))) as [i Hi].
  rewrite bind_cons, (positions_NoDup cols n i) by done.
  cbn [app omap list_omap]. rewrite Hi. cbn. f_equal.
  apply IH. intros n' Hn'. apply Hin. by right.
Qed.

Lemma select_all_positions names cols off :
  NoDup cols ->
  (forall k n, names !! k = Some n -> cols !! (off + k)%nat = Some n) ->
  names ≫= (fun n => positions n cols) = seq off (length names).
Proof.
  intros Hnd. revert off. induction names as [|n names IH]; intros off Hk; [done|].
  rewrite bind_cons, (positions_NoDup cols n off Hnd).
  - cbn [app length seq]. f_equal. apply IH. intros k n' Hn'.
    replace (S off + k)%nat with (off + S k)%nat by lia. by apply Hk.
  - replace off with (off + 0)%nat at 1 by lia. by apply Hk.
Qed.

Lemma fmap_cell_at_seq (r : list cell) :
  (fun p => cell_at p r) <$> seq 0 (length r) = r.
Proof.
  apply list_eq. intros k. rewrite list_lookup_fmap.
  destruct (r !! k) as [c|] eqn:Hk.
  - rewrite lookup_seq_lt by (by eapply lookup_lt_Some).
    cbn. unfold cell_at. by rewrite Hk.
  - rewrite lookup_seq_ge; [done|]. by apply lookup_ge_None.
Qed.

(** Selecting its own labels, in order, from a frame with pairwise
    distinct labels gives the frame back. *)
Lemma getitem_list_self df :
  wf_frame df -> NoDup (columns df) -> getitem_list (columns df) df = Ok df.
Proof.
  intros Hwf Hnd. unfold getitem_list.
  assert (filter (fun n => n ∉ columns df) (columns df) = []) as ->.
  { destruct (filter _ (columns df)) as [|n0 ms] eqn:Hf; [done|].
    assert (n0 ∈ filter (fun n => n ∉ columns df) (columns df)) as Hin
      by (rewrite Hf; left).
    by apply list_elem_of_filter in Hin as [? ?]. }
  rewrite select_labels by done.
  rewrite (select_all_positions (columns df) (columns df) 0) by done.
  destruct df as [cols rows]. cbn [columns data] in *. do 2 f_equal.
  rewrite <- (list_fmap_id rows) at 2. apply Forall_fmap_ext_1.
  eapply Forall_impl; [exact Hwf|]. intros r Hr. simpl in Hr.
  rewrite <- Hr. apply fmap_cell_at_seq.
Qed.

Lemma rename_fixed m df :
  (forall n, n ∈ columns df -> m !! n = None) -> rename m df = df.
Proof.
  intros Hm. destruct df as [cols rows]. unfold rename. cbn [columns data] in *.
  f_equal. rewrite <- (list_fmap_id cols) at 2. apply list_fmap_ext.
  intros k n Hn. unfold rename_label. rewrite Hm; [done|].
  by eapply list_elem_of_lookup_2.
Qed.

Lemma project_columns m order df out :
  NoDup (rename_label m <$> columns df) ->
  project m order df = Ok out -> columns out = order.
Proof.
  intros Hnd Hp. apply getitem_list_inv in Hp as [-> Hin].
  cbn [columns rename] in *. by apply select_labels.
Qed.

Lemma clean_then_select_columns m order name f df out :
  bind (apply_column name f (rename m df)) (getitem_list order) = Ok out ->
  columns out
  = omap (fun p => (rename_label m <$> columns df) !! p)
         (order ≫= (fun n => positions n (rename_label m <$> columns df)))
  /\ forall n, n ∈ order -> n ∈ rename_label m <$> columns df.
Proof.
  intros Hp. apply bind_Ok in Hp as (out1 & Ha & Hg).
  apply apply_column_columns in Ha. cbn [rename columns] in Ha.
  apply getitem_list_inv in Hg as [-> Hin]. cbn [columns]. by rewrite Ha in *.
Qed.

Lemma alter_fixed {A} (f : A -> A) (i : nat) (l : list A) :
  (forall x, l !! i = Some x -> f x = x) -> alter f i l = l.
Proof.
  intros Hf. apply list_eq. intros k.
  destruct (decide (i = k)) as [->|Hne].
  - rewrite list_lookup_alter_eq. destruct (l !! k) as [x|] eqn:Hk; [|done].
    cbn. by rewrite Hf.
  - by rewrite list_lookup_alter_ne.
Qed.

Lemma task_labels_not_keys :
  (forall n, n ∈ task1_order -> task1_map !! n = None)
  /\ (forall n, n ∈ task2_order -> task2_map !! n = None)
  /\ (forall n, n ∈ task3_order -> task3_map !! n = None)
  /\ (forall n, n ∈ task4_order -> task4_map !! n = None).
Proof.
  split_and!; intros n Hn;
    repeat (apply elem_of_cons in Hn as [->|Hn]; [by vm_compute|]);
    by apply not_elem_of_nil in Hn.
Qed.

Lemma task_orders_NoDup :
  NoDup task1_order /\ NoDup task2_order /\ NoDup task3_order /\ NoDup task4_order.
Proof. split_and!; apply (bool_decide_unpack _); by vm_compute. Qed.

End ProjectionShape.

Section Task4Shape.

Lemma clean_diff_control_free c :
  Forall (fun x => Text.is_control x = false) (clean_diff c).
Proof.
  unfold clean_diff. destruct (isna c); [constructor|apply clean_str_control_free].
Qed.

Lemma clean_diff_again c : clean_diff (Str (clean_diff c)) = clean_diff c.
Proof.
  unfold clean_diff. cbn [isna py_str].
  destruct (isna c); [reflexivity|apply clean_str_idempotent].
Qed.

Lemma task4_diff_cells df out row k :
  wf_frame df -> produce_task4 df = Ok out ->
  row ∈ data out -> columns out !! k = Some "PRDIFF" ->
  exists c, row !! k = Some (Str (clean_diff c)).
Proof.
  intros Hwf Hp Hrow Hk.
  pose proof (produce_task4_data df out Hwf Hp) as Hdata.
  destruct (clean_then_select_columns task4_map task4_order "PRDIFF"
              (fun c => Str (clean_diff c)) df out Hp) as [Hcols _].
  set (cols := rename_label task4_map <$> columns df) in *.
  set (ps := task4_order ≫= (fun n => positions n cols)) in *.
  rewrite select_labels_total in Hcols by apply positions_bind_lt.
  rewrite Hcols, list_lookup_fmap in Hk.
  destruct (ps !! k) as [p|] eqn:Hps; [|done]. cbn in Hk.
  assert (cols !! p = Some "PRDIFF") as Hp'.
  { assert (p < length cols)%nat as Hlt.
    { pose proof (positions_bind_lt task4_order cols) as Hall.
      rewrite Forall_forall in Hall. apply Hall. by eapply list_elem_of_lookup_2. }
    destruct (lookup_lt_is_Some_2 cols p Hlt) as [c Hc].
    rewrite Hc in Hk |- *. cbn in Hk. congruence. }
  rewrite Hdata in Hrow. apply list_elem_of_fmap in Hrow as (r0 & -> & _).
  exists (cell_at p r0). rewrite list_lookup_fmap, Hps. cbn.
  by rewrite decide_True.
Qed.

(** The cell written under PRDIFF in row [i] is the cleaned cell of row
    [i] of the source, read at a column that the renaming labels PRDIFF. *)
Lemma task4_diff_cell_at df out r0 row i k :
  wf_frame df -> produce_task4 df = Ok out ->
  data df !! i = Some r0 -> data out !! i = Some row ->
  columns out !! k = Some "PRDIFF" ->
  exists p, (rename_label task4_map <$> columns df) !! p = Some "PRDIFF"
    /\ row !! k = Some (Str (clean_diff (cell_at p r0))).
Proof.
  intros Hwf Hp Hin Hrow Hk.
  pose proof (produce_task4_data df out Hwf Hp) as Hdata.
  destruct (clean_then_select_columns task4_map task4_order "PRDIFF"
              (fun c => Str (clean_diff c)) df out Hp) as [Hcols _].
  set (cols := rename_label task4_map <$> columns df) in *.
  set (ps := task4_order ≫= (fun n => positions n cols)) in *.
  rewrite select_labels_total in Hcols by apply positions_bind_lt.
  rewrite Hcols, list_lookup_fmap in Hk.
  destruct (ps !! k) as [p|] eqn:Hps; [|done]. cbn in Hk.
  assert (cols !! p = Some "PRDIFF") as Hp'.
  { assert (p < length cols)%nat as Hlt.
    { pose proof (positions_bind_lt task4_order cols) as Hall.
      rewrite Forall_forall in Hall. apply Hall. by eapply list_elem_of_lookup_2. }
    destruct (lookup_lt_is_Some_2 cols p Hlt) as [c Hc].
    rewrite Hc in Hk |- *. cbn in Hk. congruence. }
  rewrite Hdata, list_lookup_fmap, Hin in Hrow. injection Hrow as <-.
  exists p. split; [done|]. rewrite list_lookup_fmap, Hps. cbn.
  by rewrite decide_True.
Qed.

End Task4Shape.

(** X7.  A projection neither drops nor adds rows, and every row it writes
    has one cell per written label; so do the four tasks. *)
Theorem projection_keeps_rows (df out : DataFrame)
    (Hok : produce_task1 df = Ok out \/ produce_task2 df = Ok out
           \/ produce_task3 df = Ok out \/ produce_task4 df = Ok out
           \/ exists m order, project m order df = Ok out) :
  length (data out) = length (data df) /\ wf_frame out.
Proof.
  destruct Hok as [Hp|[Hp|[Hp|[Hp|(m & order & Hp)]]]];
    try (by apply getitem_list_shape in Hp).
  unfold produce_task4 in Hp. apply bind_Ok in Hp as (out1 & Ha & Hg).
  apply apply_column_rows in Ha. apply getitem_list_shape in Hg as [Hlen Hwf].
  split; [|done]. by rewrite Hlen, Ha.
Qed.

Lemma projection_keeps_rows_witness :
  exists out, produce_task1 pr_sample = Ok out /\ length (data out) = 2%nat.
Proof.
  eexists. split; [vm_compute; reflexivity|].
  match goal with |- length (data ?o) = _ =>
    apply (proj1 (projection_keeps_rows pr_sample o (or_introl eq_refl)))
  end.
Defined.

(** X8.  When the renamed labels of the source are pairwise distinct, the
    labels of the written frame are exactly the declared ones, in the
    declared order: no other column of the source comes through. *)
Theorem projection_labels (m : gmap string string) (order : list string)
    (df out : DataFrame)
    (Hnd : NoDup (rename_label m <$> columns df))
    (Hok : project m order df = Ok out
           \/ (m = task4_map /\ order = task4_order /\ produce_task4 df = Ok out)) :
  columns out = order.
Proof.
  destruct Hok as [Hp|(-> & -> & Hp)]; [by eapply project_columns|].
  destruct (clean_then_select_columns task4_map task4_order "PRDIFF"
              (fun c => Str (clean_diff c)) df out Hp) as [-> Hin].
  by apply select_labels.
Qed.

Lemma projection_labels_witness :
  exists out, produce_task1 pr_sample = Ok out /\ columns out = task1_order.
Proof.
  eexists. split; [vm_compute; reflexivity|].
  match goal with |- columns ?o = _ =>
    apply (projection_labels task1_map task1_order pr_sample o);
      [apply (bool_decide_unpack _); vm_compute; exact I|left; reflexivity]
  end.
Defined.

(** X9.  Projecting a projected frame again changes nothing: when the
    renamed labels of the source are pairwise distinct, the declared labels
    are pairwise distinct and none of them is a key of the rename map, the
    projection of its own output is that output.  The maps and orders of
    tasks 1 to 3 are of that kind. *)
Theorem projection_fixed_point (df out : DataFrame) :
  (forall m order,
     NoDup (rename_label m <$> columns df) -> NoDup order ->
     (forall n, n ∈ order -> m !! n = None) ->
     project m order df = Ok out -> project m order out = Ok out)
  /\ (NoDup (rename_label task1_map <$> columns df) ->
      produce_task1 df = Ok out -> produce_task1 out = Ok out)
  /\ (NoDup (rename_label task2_map <$> columns df) ->
      produce_task2 df = Ok out -> produce_task2 out = Ok out)
  /\ (NoDup (rename_label task3_map <$> columns df) ->
      produce_task3 df = Ok out -> produce_task3 out = Ok out).
Proof.
  assert (forall m order,
     NoDup (rename_label m <$> columns df) -> NoDup order ->
     (forall n, n ∈ order -> m !! n = None) ->
     project m order df = Ok out -> project m order out = Ok out) as Hgen.
  { intros m order Hnd Hord Hkeys Hp.
    pose proof (project_columns m order df out Hnd Hp) as Hcols.
    apply getitem_list_shape in Hp as [_ Hwf].
    unfold project. rewrite rename_fixed by (by rewrite Hcols).
    rewrite <- Hcols. apply getitem_list_self; [done|by rewrite Hcols]. }
  destruct task_labels_not_keys as (K1 & K2 & K3 & _).
  destruct task_orders_NoDup as (N1 & N2 & N3 & _).
  split_and!; [exact Hgen|..]; intros Hnd Hp.
  - by apply (Hgen task1_map task1_order).
  - by apply (Hgen task2_map task2_order).
  - by apply (Hgen task3_map task3_order).
Qed.

Lemma projection_fixed_point_witness :
  exists out, produce_task1 pr_sample = Ok out /\ produce_task1 out = Ok out.
Proof.
  eexists. split; [vm_compute; reflexivity|].
  match goal with |- produce_task1 ?o = _ =>
    apply (proj1 (proj2 (projection_fixed_point pr_sample o)));
      [apply (bool_decide_unpack _); vm_compute; exact I|reflexivity]
  end.
Defined.

(** X10.  The cell that task 4 writes under PRDIFF in a row is the
    cleaned diff of the same row of the source, read at the column named
    [patch] (or PRDIFF): the empty string when that diff is null, and in
    every case a string without carriage return, line feed, tab or other
    control character, which cleaning would leave as it is. *)
Theorem task4_diff_cells_clean (df out : DataFrame) (r0 row : list cell) (i k : nat)
    (Hwf : wf_frame df) (Hok : produce_task4 df = Ok out)
    (Hin : data df !! i = Some r0) (Hrow : data out !! i = Some row)
    (Hk : columns out !! k = Some "PRDIFF") :
  exists p s,
    (columns df !! p = Some "patch"%string \/ columns df !! p = Some "PRDIFF"%string)
    /\ row !! k = Some (Str s)
    /\ s = clean_diff (cell_at p r0)
    /\ (isna (cell_at p r0) = true -> s = [])
    /\ (isna (cell_at p r0) = false -> s = Text.clean_str (py_str (cell_at p r0)))
    /\ Forall (fun c => (c <> 13 /\ c <> 10 /\ c <> 9) /\ 31 < c /\ ~ (127 <= c <= 159)) s
    /\ clean_diff (Str s) = s.
Proof.
  destruct (task4_diff_cell_at df out r0 row i k Hwf Hok Hin Hrow Hk) as (p & Hp & Hc).
  exists p, (clean_diff (cell_at p r0)).
  split_and!; [|done|done|..|apply clean_diff_again].
  - rewrite list_lookup_fmap in Hp.
    destruct (columns df !! p) as [c|] eqn:Hcp; [|done].
    cbn in Hp. injection Hp as Hp. apply task4_diff_source in Hp as [-> | ->]; auto.
  - intros Hna. unfold clean_diff. by rewrite Hna.
  - intros Hna. unfold clean_diff. by rewrite Hna.
  - pose proof (clean_diff_control_free (cell_at p r0)) as Hctl.
    pose proof (control_free_crlftab_free _ Hctl) as Hcr.
    apply Forall_forall. intros x Hx. rewrite Forall_forall in Hctl, Hcr.
    split; [by apply is_crlftab_values, Hcr|by apply is_control_range, Hctl].
Qed.

(** X11.  Task 4 applied to its own output gives that output again, for a
    source whose renamed labels are pairwise distinct. *)
Theorem task4_fixed_point (df out : DataFrame)
    (Hwf : wf_frame df)
    (Hnd : NoDup (rename_label task4_map <$> columns df))
    (Hok : produce_task4 df = Ok out) :
  produce_task4 out = Ok out.
Proof.
  assert (columns out = task4_order) as Hcols.
  { destruct (clean_then_select_columns task4_map task4_order "PRDIFF"
                (fun c => Str (clean_diff c)) df out Hok) as [-> Hin].
    by apply select_labels. }
  assert (wf_frame out) as Hwfo.
  { pose proof Hok as Hp. unfold produce_task4 in Hp.
    apply bind_Ok in Hp as (out1 & _ & Hg). by apply getitem_list_shape in Hg as [_ ?]. }
  destruct task_labels_not_keys as (_ & _ & _ & K4).
  destruct task_orders_NoDup as (_ & _ & _ & N4).
  unfold produce_task4. rewrite rename_fixed by (by rewrite Hcols).
  assert (apply_column "PRDIFF" (fun c => Str (clean_diff c)) out = Ok out) as ->.
  { unfold apply_column. rewrite Hcols.
    change (positions "PRDIFF" task4_order) with [8%nat].
    destruct out as [cols rows]. cbn [columns data] in *. subst cols. f_equal. f_equal.
    rewrite <- (list_fmap_id rows) at 2. apply list_fmap_ext. intros i r Hr.
    unfold id. apply alter_fixed. intros x Hx.
    destruct (task4_diff_cells df {| columns := task4_order; data := rows |} r 8
                Hwf Hok) as [c Hc].
    - by eapply list_elem_of_lookup_2.
    - reflexivity.
    - rewrite Hx in Hc. injection Hc as ->. by rewrite clean_diff_again. }
  cbn [bind]. rewrite <- Hcols. apply getitem_list_self; [done|by rewrite Hcols].
Qed.

(** X12.  Task 4 stops with the KeyError that names PRDIFF alone exactly
    when the source has neither a [patch] nor a [PRDIFF] column: the
    cleaning line fails before any other label is looked for. *)
Theorem task4_without_patch (df : DataFrame) :
  produce_task4 df = Err (KeyError ["PRDIFF"]) <->
  ("patch" ∉ columns df) /\ ("PRDIFF" ∉ columns df).
Proof.
  assert ("PRDIFF" ∉ (rename_label task4_map <$> columns df) <->
          ("patch" ∉ columns df) /\ ("PRDIFF" ∉ columns df)) as Hsrc.
  { rewrite list_elem_of_fmap. split.
    - intros Hno. split; intros Hin; apply Hno.
      + exists "patch". split; [by vm_compute|done].
      + exists "PRDIFF". split; [by vm_compute|done].
    - intros [Hp Hd] (c & Hc & Hin). symmetry in Hc.
      apply task4_diff_source in Hc as [-> | ->]; done. }
  rewrite <- Hsrc. split.
  - intros Hp Hin. unfold produce_task4 in Hp.
    destruct (apply_column "PRDIFF" (fun c => Str (clean_diff c)) (rename task4_map df))
      as [out1|e] eqn:Ha.
    + cbn [bind] in Hp. apply apply_column_columns in Ha.
      unfold getitem_list in Hp.
      destruct (filter (fun n => n ∉ columns out1) task4_order) as [|n0 ms] eqn:Hf;
        [done|].
      injection Hp as -> ->.
      assert ("PRDIFF" ∈ filter (fun n => n ∉ columns out1) task4_order) as Hm
        by (rewrite Hf; left).
      apply list_elem_of_filter in Hm as [Hno _]. apply Hno. by rewrite Ha.
    + cbn [bind] in Hp. injection Hp as ->.
      unfold apply_column in Ha. cbn [rename columns data] in Ha.
      destruct (positions "PRDIFF" (rename_label task4_map <$> columns df))
        as [|i [|i' ps]] eqn:Hpos.
      * by apply positions_nil in Hpos.
      * done.
      * by destruct (data df).
  - intros Hno. apply positions_nil in Hno.
    unfold produce_task4, apply_column. cbn [rename columns]. by rewrite Hno.
Qed.

(** ** The join on the frames of tasks 1 and 3 *)

Section JoinShape.
Context `{PyLower}.





Lemma cell_at_app_r k (l rp : list cell) :
  cell_at (length l + k) (l ++ rp) = cell_at k rp.
Proof. unfold cell_at. by rewrite lookup_app_r, Nat.add_sub' by lia. Qed.

(** The written rows for frames that carry the labels of tasks 1 and 3. *)
Lemma join_on_schemas_rows df1 df3 out :
  columns df1 = task1_order -> columns df3 = task3_order ->
  wf_frame df1 -> wf_frame df3 -> produce_task5 df1 df3 = Ok out ->
  data out
  = data df1 ≫= (fun l =>
      match matches 1 0 (data df3) l with
      | [] => [[cell_at 1 l; cell_at 2 l; Missing; Missing;
                Int (has_security_flag task1_order l)]]
      | ms => (fun r => [cell_at 1 l; cell_at 2 l; cell_at 3 r; cell_at 4 r;
                         Int (has_security_flag task1_order l)]) <$> ms
      end).
Proof.
  intros Hc1 Hc3 Hwf1 Hwf3 Hok.
  destruct (produce_task5_inv df1 df3 out Hwf1 Hwf3 Hok)
    as (i & j & ka & kt & kc & Hi & Hj & Hka & Hkt & Hkc & ->).
  unfold merged_columns in Hka, Hkt, Hkc.
  rewrite Hc1 in Hi. rewrite Hc3 in Hj. rewrite Hc1, Hc3 in Hka, Hkt, Hkc.
  vm_compute in Hi, Hj, Hka, Hkt, Hkc.
  injection Hi as <-. injection Hj as <-.
  injection Hka as <-. injection Hkt as <-. injection Hkc as <-.
  cbn [data]. apply bind_ext_in. intros l Hl.
  assert (length l = 6%nat) as Hlen.
  { unfold wf_frame in Hwf1. rewrite Forall_forall in Hwf1.
    rewrite (Hwf1 l Hl), Hc1. reflexivity. }
  assert (forall rp,
            [cell_at 1 l; cell_at 2 (l ++ rp); cell_at 9 (l ++ rp); cell_at 10 (l ++ rp);
             Int (has_security_flag (merged_columns df1 df3) (l ++ rp))]
            = [cell_at 1 l; cell_at 2 l; cell_at 3 rp; cell_at 4 rp;
               Int (has_security_flag task1_order l)]) as Hrow.
  { intros rp.
    rewrite (cell_at_app_l 2) by lia.
    change (cell_at 10 (l ++ rp)) with (cell_at (6 + 4) (l ++ rp)).
    change (cell_at 9 (l ++ rp)) with (cell_at (6 + 3) (l ++ rp)).
    rewrite <- Hlen, !cell_at_app_r.
    rewrite has_security_flag_left.
    - by rewrite Hc1.
    - by rewrite Hlen, Hc1.
    - rewrite Hc1. apply (bool_decide_unpack _). by vm_compute.
    - rewrite Hc1. apply (bool_decide_unpack _). by vm_compute. }
  unfold right_parts. rewrite Hc3.
  destruct (matches 1 0 (data df3) l) as [|m ms].
  - cbn [fmap list_fmap]. by rewrite Hrow.
  - apply list_fmap_ext. intros _ rp _. apply Hrow.
Qed.

End JoinShape.





(** X15.  On those frames and with ids of one kind, when no
    classification row has the id of any pull request (an empty
    classification table is one case), the written table has exactly one
    row per pull request, in order, with its id, agent and flag and with
    null type and confidence. *)
Theorem join_without_matches `{PyLower} (df1 df3 out : DataFrame)
    (Hc1 : columns df1 = task1_order) (Hc3 : columns df3 = task3_order)
    (Hwf1 : wf_frame df1) (Hwf3 : wf_frame df3)
    (Hkeys : keys_of_one_kind (cell_at 1 <$> data df1) (cell_at 0 <$> data df3))
    (Hno : forall l r, l ∈ data df1 -> r ∈ data df3 -> cell_at 0 r <> cell_at 1 l)
    (Hok : produce_task5 df1 df3 = Ok out) :
  data out
  = (fun l => [cell_at 1 l; cell_at 2 l; Missing; Missing;
               Int (has_security_flag task1_order l)]) <$> data df1.
Proof.
  rewrite (join_on_schemas_rows df1 df3 out Hc1 Hc3 Hwf1 Hwf3 Hok).
  assert (forall l, l ∈ data df1 -> matches 1 0 (data df3) l = []) as Hm.
  { intros l Hl. unfold matches.
    destruct (filter _ (data df3)) as [|r rs] eqn:Hf; [done|].
    assert (r ∈ filter (fun r => key_eq (cell_at 0 r) (cell_at 1 l) = true) (data df3))
      as Hin by (rewrite Hf; left).
    apply list_elem_of_filter in Hin as [E Hin].
    apply (key_eq_one_kind _ _ _ _ Hkeys) in E; [by destruct (Hno l r)|..];
      by apply list_elem_of_fmap_2. }
  clear Hok Hkeys. induction (data df1) as [|l rows IH]; [done|].
  rewrite bind_cons, fmap_cons, Hm by left. cbn [app]. f_equal.
  apply IH.
  - intros l' r Hl'. apply Hno. by right.
  - intros l' Hl'. apply Hm. by right.
Qed.

Lemma join_without_matches_witness :
  exists out, produce_task5 pr_sample cls_none = Ok out
    /\ data out
       = [ [Int 5; Str (lit "Copilot"); Missing; Missing; Int 1];
           [Int 6; Str (lit "Devin"); Missing; Missing; Int 0] ].
Proof.
  eexists. split; [vm_compute; reflexivity|].
  match goal with |- data ?o = _ =>
    rewrite (join_without_matches pr_sample cls_none o eq_refl eq_refl
               ltac:(repeat constructor) ltac:(repeat constructor)
               ltac:(left; split; repeat constructor; eexists; reflexivity)
               ltac:(intros l r _ Hr; by apply not_elem_of_nil in Hr) eq_refl)
  end.
  reflexivity.
Defined.

(** ** Sample runs of the properties above *)

Lemma clean_diff_fixed_points_witness :
  clean_diff (Str (lit "fix bug line2")) = lit "fix bug line2".
Proof.
  apply (proj2 (clean_diff_fixed_points (lit "fix bug line2"))).
  split_and!.
  - apply (bool_decide_unpack _). vm_compute. exact I.
  - intros pre post E.
    apply (TextFacts.no_sp_pair_spec (lit "fix bug line2")) in E; [done|].
    vm_compute. intuition discriminate.
  - intros c [= <-]. reflexivity.
  - intros c [= <-]. reflexivity.
Defined.

Lemma clean_diff_empty_iff_witness : clean_diff (Str [32; 10; 0; 9]) = [].
Proof.
  apply (proj2 (clean_diff_empty_iff (Str [32; 10; 0; 9]))).
  right. apply (bool_decide_unpack _). vm_compute. exact I.
Defined.

Lemma security_flag_where_witness :
  has_security_flag ["TITLE"; "BODYSTRING"]
    [Str (lit "How to gain"); Str (lit "Access tokens")] = 1%Z.
Proof.
  apply (proj2 (security_flag_where ["TITLE"; "BODYSTRING"]
                  [Str (lit "How to gain"); Str (lit "Access tokens")])).
  right. right. exists (lit "gain"), (lit "access"). split_and!.
  - apply (bool_decide_unpack _). vm_compute. exact I.
  - by exists (lit "how to ").
  - by exists (lit " tokens").
Defined.

Lemma task4_diff_cells_clean_witness :
  exists out row, produce_task4 commit_sample = Ok out
    /\ data out !! 1%nat = Some row
    /\ row !! 8%nat = Some (Str []).
Proof.
  eexists. eexists. split; [vm_compute; reflexivity|]. split; [reflexivity|].
  match goal with |- ?row !! _ = _ =>
    destruct (task4_diff_cells_clean commit_sample _
                [Int 6; Str (lit "9c0d"); Str (lit "Add docs"); Str (lit "a.bin");
                 Str (lit "added"); Int 0; Int 0; Int 0; Missing]
                row 1 8
                ltac:(repeat constructor) eq_refl eq_refl eq_refl eq_refl)
      as (p & s & Hp & Hs & _ & Hnull & _)
  end.
  rewrite Hs. f_equal. f_equal. apply Hnull.
  do 9 (destruct p as [|p];
        [destruct Hp as [Hp|Hp]; vm_compute in Hp; first [discriminate Hp|reflexivity]|]).
  destruct Hp as [Hp|Hp]; vm_compute in Hp; discriminate Hp.
Defined.

Lemma task4_fixed_point_witness :
  exists out, produce_task4 commit_sample = Ok out /\ produce_task4 out = Ok out.
Proof.
  eexists. split; [vm_compute; reflexivity|].
  match goal with |- produce_task4 ?o = _ =>
    apply (task4_fixed_point commit_sample o ltac:(repeat constructor)
             ltac:(apply (bool_decide_unpack _); vm_compute; exact I) eq_refl)
  end.
Defined.

Lemma task4_without_patch_witness :
  produce_task4 pr_sample = Err (KeyError ["PRDIFF"]).
Proof.
  apply (proj2 (task4_without_patch pr_sample)).
  split; apply (bool_decide_unpack _); vm_compute; exact I.
Defined.
